(** * Excel2Word: the missed-homework extractor and its renderers

    A shallow embedding of the core of [src/e2w.py] (the extractor, the
    mail-merge projector, the document builder and the CSV download of
    [main]), followed by the properties of the written specification that
    the code decides.

    Conventions.
    - A Python [str] is a [string] whose characters are the code points
      below 256; [isspace] is Python's [str.isspace] on that range.
    - A pandas cell is a [scalar]: an integer, a binary64 float (a blank
      cell is the float NaN, as [read_excel] produces it) or a text.
    - Exceptions are values: every function that can raise returns a
      [result]. *)

From Stdlib Require Import List String Ascii ZArith NArith QArith Bool Lia.
From Stdlib Require Import Permutation Sorted DecimalString Floats.SpecFloat.
Import ListNotations.

Local Open Scope string_scope.
Local Open Scope Z_scope.

(** ** Python built-ins used by the program *)

Module Py.

(** [str.isspace] for one character. *)
Definition isspace (c : ascii) : bool :=
  let n := N_of_ascii c in
  (((9 <=? n) && (n <=? 13)) || ((28 <=? n) && (n <=? 32))
   || (n =? 133) || (n =? 160))%N.

Fixpoint lstrip (s : string) : string :=
  match s with
  | EmptyString => EmptyString
  | String c s' => if isspace c then lstrip s' else s
  end.

Fixpoint rstrip (s : string) : string :=
  match s with
  | EmptyString => EmptyString
  | String c s' =>
      match rstrip s' with
      | EmptyString => if isspace c then EmptyString else String c EmptyString
      | r => String c r
      end
  end.

(** [s.strip()] *)
Definition strip (s : string) : string := rstrip (lstrip s).

(** [s.split()]: [cur] is the word being read, if any. *)
Fixpoint split_from (cur : option string) (s : string) : list string :=
  match s with
  | EmptyString => match cur with Some w => [w] | None => [] end
  | String c s' =>
      if isspace c then
        match cur with
        | Some w => w :: split_from None s'
        | None => split_from None s'
        end
      else
        split_from
          (Some (match cur with Some w => w | None => EmptyString end
                 ++ String c EmptyString)) s'
  end.

Definition split (s : string) : list string := split_from None s.

(** [sep.join(l)] *)
Fixpoint join (sep : string) (l : list string) : string :=
  match l with
  | [] => EmptyString
  | [x] => x
  | x :: l' => x ++ sep ++ join sep l'
  end.

(** [sorted(l)] on strings: code-point lexicographic order. *)
Fixpoint insert_sorted (x : string) (l : list string) : list string :=
  match l with
  | [] => [x]
  | y :: l' => if String.leb x y then x :: l else y :: insert_sorted x l'
  end.

Definition sorted (l : list string) : list string :=
  fold_right insert_sorted [] l.

(** [l[i:]] with Python's clamping of the start index. *)
Definition slice_from {A} (l : list A) (i : Z) : list A :=
  let n := Z.of_nat (List.length l) in
  let start := if i <? 0 then Z.max 0 (n + i) else Z.min i n in
  skipn (Z.to_nat start) l.

(** [str(z)] for an [int]. *)
Definition str_int (z : Z) : string := NilZero.string_of_int (Z.to_int z).

End Py.

(** ** [repr] of a binary64 float

    CPython prints a float with the shortest decimal digit string that reads
    back to the same binary64 value, the closest such string to the value;
    it switches to exponent notation when the decimal point would sit more
    than four places to the left of the digits or more than sixteen places
    from their start. *)

Module FloatRepr.

(** [m * 2 ^ e] and [d * 10 ^ k] as rationals. *)
Definition q2 (m e : Z) : Q :=
  if 0 <=? e then inject_Z (m * 2 ^ e) else Qmake m (Z.to_pos (2 ^ (- e))).

Definition q10 (d k : Z) : Q :=
  if 0 <=? k then inject_Z (d * 10 ^ k) else Qmake d (Z.to_pos (10 ^ (- k))).

Definition Qltb (a b : Q) : bool := negb (Qle_bool b a).

Section Digits.
Variable m : positive.
Variable e : Z.

Let x : Q := q2 (Zpos m) e.

(** Half-way points to the neighbouring floats: the decimal strings
    strictly between them (or on them, for an even mantissa) read back
    to [x]. *)
Definition upper_mid : Q := q2 (2 * Zpos m + 1) (e - 1).

Definition lower_mid : Q :=
  if (Zpos m =? 2 ^ 52) && (-1074 <? e)
  then q2 (4 * Zpos m - 1) (e - 2)
  else q2 (2 * Zpos m - 1) (e - 1).

Definition reads_back (q : Q) : bool :=
  if Z.even (Zpos m)
  then Qle_bool lower_mid q && Qle_bool q upper_mid
  else Qltb lower_mid q && Qltb q upper_mid.

(** The decimal exponent [p] with [10^p <= x < 10^(p+1)]. *)
Fixpoint log10_adjust (fuel : nat) (p : Z) : Z :=
  match fuel with
  | O => p
  | S fuel' =>
      if Qltb x (q10 1 p) then log10_adjust fuel' (p - 1)
      else if Qle_bool (q10 1 (p + 1)) x then log10_adjust fuel' (p + 1)
      else p
  end.

Definition log10_floor : Z :=
  log10_adjust 8 (((e + Z.log2 (Zpos m)) * 30103) / 100000).

(** [floor (x / 10^k)] *)
Definition scaled_floor (k : Z) : Z :=
  let n := Qnum x in
  let d := Zpos (Qden x) in
  if 0 <=? k then n / (d * 10 ^ k) else (n * 10 ^ (- k)) / d.

(** The first digit count [n] for which an [n]-digit decimal reads back
    to [x]; the result is the digits as an integer and their exponent. *)
Fixpoint shortest_from (fuel : nat) (n : Z) : Z * Z :=
  match fuel with
  | O => (Zpos m, e)
  | S fuel' =>
      let k := log10_floor - n + 1 in
      let d := scaled_floor k in
      let lo := q10 d k in
      let hi := q10 (d + 1) k in
      match reads_back lo, reads_back hi with
      | true, true =>
          match Qcompare (x - lo) (hi - x) with
          | Lt => (d, k)
          | Gt => (d + 1, k)
          | Eq => if Z.even d then (d, k) else (d + 1, k)
          end
      | true, false => (d, k)
      | false, true => (d + 1, k)
      | false, false => shortest_from fuel' (n + 1)
      end
  end.

Fixpoint drop_zeros (fuel : nat) (dk : Z * Z) : Z * Z :=
  match fuel with
  | O => dk
  | S fuel' =>
      let '(d, k) := dk in
      if (d mod 10 =? 0) && negb (d =? 0)
      then drop_zeros fuel' (d / 10, k + 1) else dk
  end.

Definition shortest_digits : Z * Z := drop_zeros 20 (shortest_from 17 1).
End Digits.

Fixpoint zeros (n : nat) : string :=
  match n with O => EmptyString | S n' => String "0" (zeros n') end.

(** Layout of the digits [ds], the decimal point standing [decpt] places
    after their start. *)
Definition layout (ds : string) (decpt : Z) : string :=
  let nd := Z.of_nat (String.length ds) in
  if (decpt <=? -4) || (16 <? decpt) then
    let ex := decpt - 1 in
    let exs := Py.str_int (Z.abs ex) in
    substring 0 1 ds
    ++ (if 1 <? nd then "." ++ substring 1 (String.length ds - 1) ds else "")
    ++ "e" ++ (if ex <? 0 then "-" else "+")
    ++ (if Nat.ltb (String.length exs) 2 then "0" else "") ++ exs
  else if decpt <=? 0 then
    "0." ++ zeros (Z.to_nat (- decpt)) ++ ds
  else if decpt <? nd then
    substring 0 (Z.to_nat decpt) ds ++ "."
    ++ substring (Z.to_nat decpt) (String.length ds - Z.to_nat decpt) ds
  else
    ds ++ zeros (Z.to_nat (decpt - nd)) ++ ".0".

Definition repr (f : spec_float) : string :=
  match f with
  | S754_nan => "nan"
  | S754_infinity s => if s then "-inf" else "inf"
  | S754_zero s => if s then "-0.0" else "0.0"
  | S754_finite s m e =>
      let '(d, k) := shortest_digits m e in
      let ds := Py.str_int d in
      (if s then "-" else "")
      ++ layout ds (k + Z.of_nat (String.length ds))
  end.

End FloatRepr.

(** ** Exceptions *)

Inductive exception :=
| ValueError (msg : string)
| KeyError (key : string)
| IndexError.

Inductive result (A : Type) :=
| Ok (a : A)
| Raise (e : exception).

Arguments Ok {A} a.
Arguments Raise {A} e.

Definition bind {A B} (r : result A) (k : A -> result B) : result B :=
  match r with
  | Ok a => k a
  | Raise e => Raise e
  end.

Notation "x <- r ;; k" := (bind r (fun x => k))
  (at level 61, r at next level, right associativity).

(** ** Python sets of strings

    A set is kept as the list of its elements in iteration order.  That
    order depends on the string hashes of the running interpreter, so it is
    an interface: any rearrangement of the elements is a possible order. *)

Class SetOrder := {
  set_iter : list string -> list string;
  set_iter_perm : forall l, Permutation (set_iter l) l
}.

Section PySet.
Context {order : SetOrder}.

(** [set(l)] *)
Definition mk_set (l : list string) : list string :=
  set_iter (nodup string_dec l).

Definition mem (x : string) (s : list string) : bool :=
  existsb (String.eqb x) s.

(** [a - b] *)
Definition set_difference (a b : list string) : list string :=
  set_iter (filter (fun x => negb (mem x b)) a).
End PySet.

(** ** Data model *)

(** A cell of the sheet as [iterrows] hands it to the loop: a Python [int],
    a binary64 [float] in the canonical form of [valid_binary] (NaN for a
    blank cell) or a [str]. *)
Inductive scalar :=
| SInt (z : Z)
| SFloat (f : spec_float)
| SStr (s : string).

(** [str(v)] *)
Definition str (v : scalar) : string :=
  match v with
  | SInt z => Py.str_int z
  | SFloat f => FloatRepr.repr f
  | SStr s => s
  end.

(** [pd.notna(v)] *)
Definition notna (v : scalar) : bool :=
  match v with
  | SFloat S754_nan => false
  | _ => true
  end.

(** [v == 0] *)
Definition eq_zero (v : scalar) : bool :=
  match v with
  | SInt z => z =? 0
  | SFloat f => SFeqb f (S754_zero false)
  | SStr _ => false
  end.

(** A [DataFrame]: the column labels and, per row, one cell per column. *)
Record DataFrame := {
  columns : list string;
  data : list (list scalar)
}.

(** A row as [iterrows] yields it: a [Series] indexed by the column labels. *)
Definition Series := list (string * scalar).

Definition iterrows (df : DataFrame) : list Series :=
  map (combine (columns df)) (data df).

(** [row[key]] *)
Fixpoint getitem (row : Series) (key : string) : result scalar :=
  match row with
  | [] => Raise (KeyError key)
  | (k, v) :: row' => if String.eqb k key then Ok v else getitem row' key
  end.

(** The keyword arguments of the extractor. *)
Record Config := {
  first_name_col : string;
  last_name_col : string;
  group_col : string;
  email_col : string;
  scores_start_index : Z
}.

(** One dictionary of the extractor's result list. *)
Record StudentRecord := {
  name : string;
  group : scalar;
  email : string;
  missed : list string
}.

(** ** The extractor: [generate_missed_homework_report] *)

(** The inner loop, lines 67 to 73: [missed] is the list built so far. *)
Fixpoint scan_scores (row : Series) (score_columns missed : list string)
  : result (list string) :=
  match score_columns with
  | [] => Ok missed
  | col :: rest =>
      val <- getitem row col ;;
      if notna val && eq_zero val
      then scan_scores row rest (missed ++ [col])
      else scan_scores row rest missed
  end.

(** The loop over the rows, lines 59 to 84: [results] is the list built so
    far. *)
Fixpoint scan_rows (cfg : Config) (score_columns : list string)
  (rows : list Series) (results : list StudentRecord)
  : result (list StudentRecord) :=
  match rows with
  | [] => Ok results
  | row :: rest =>
      first_val <- getitem row (first_name_col cfg) ;;
      let first := Py.strip (str first_val) in
      last_val <- getitem row (last_name_col cfg) ;;
      let last := Py.strip (str last_val) in
      let name := Py.strip (first ++ " " ++ last) in
      group_val <- getitem row (group_col cfg) ;;
      email_raw <- getitem row (email_col cfg) ;;
      let email_val := Py.strip (str email_raw) in
      missed <- scan_scores row score_columns [] ;;
      match missed with
      | _ :: _ =>
          scan_rows cfg score_columns rest
            (results ++ [{| name := name; group := group_val;
                            email := email_val; missed := missed |}])
      | [] => scan_rows cfg score_columns rest results
      end
  end.

Definition missing_message (missing : list string) : string :=
  "Missing required column(s): " ++ Py.join ", " (Py.sorted missing).

Definition no_assignment_message (i : Z) : string :=
  "No assignment columns detected. Expected assignment columns from column index "
  ++ Py.str_int i ++ " onward.".

Definition generate_missed_homework_report {order : SetOrder}
  (df : DataFrame) (cfg : Config) : result (list StudentRecord) :=
  let required :=
    mk_set [first_name_col cfg; last_name_col cfg; group_col cfg; email_col cfg] in
  let missing := set_difference required (mk_set (columns df)) in
  match missing with
  | _ :: _ => Raise (ValueError (missing_message missing))
  | [] =>
      let score_columns := Py.slice_from (columns df) (scores_start_index cfg) in
      if Nat.eqb (List.length score_columns) 0
      then Raise (ValueError (no_assignment_message (scores_start_index cfg)))
      else scan_rows cfg score_columns (iterrows df) []
  end.

(** ** The mail-merge projector: [build_mail_merge_dataframe] *)

(** The line feed and the double quote, which a literal cannot hold. *)
Definition LF : ascii := ascii_of_nat 10.
Definition CR : ascii := ascii_of_nat 13.
Definition DQUOTE : ascii := ascii_of_nat 34.
Definition newline : string := String LF EmptyString.

(** One dictionary appended to [rows]; the frame built from the list has
    the three keys as its columns, in this order. *)
Record MailMergeRow := {
  FirstName : string;
  Email : string;
  MissedHomeworks : string
}.

(** The loop of lines 9 to 19: [rows] is the list built so far.  Indexing
    the empty list that [split] returns for a blank name raises. *)
Fixpoint mail_merge_loop (records : list StudentRecord)
  (rows : list MailMergeRow) : result (list MailMergeRow) :=
  match records with
  | [] => Ok rows
  | r :: rest =>
      first_name <-
        match Py.split (name r) with
        | tok :: _ => Ok tok
        | [] => Raise IndexError
        end ;;
      mail_merge_loop rest
        (rows ++ [{| FirstName := first_name;
                     Email := email r;
                     MissedHomeworks := Py.join newline (missed r) |}])
  end.

Definition build_mail_merge_dataframe (records : list StudentRecord)
  : result (list MailMergeRow) :=
  mail_merge_loop records [].

(** ** The document builder: [build_word_report_bytes]

    The bytes returned are python-docx's serialisation of the document
    body; the body, the sequence of blocks added to the empty document, is
    what the function decides and what is modelled. *)

Inductive block :=
| Heading (text : string) (level : Z)
| Paragraph (text : string) (style : option string).

Definition Document := list block.

Definition add_heading (doc : Document) (text : string) (level : Z) : Document :=
  (doc ++ [Heading text level])%list.

Definition add_paragraph (doc : Document) (text : string)
  (style : option string) : Document :=
  (doc ++ [Paragraph text style])%list.

Definition no_students_message : string :=
  "No students with missed homework were found.".

(** The loop of lines 104 and 105. *)
Fixpoint add_bullets (doc : Document) (assignments : list string) : Document :=
  match assignments with
  | [] => doc
  | a :: rest => add_bullets (add_paragraph doc (" " ++ a) (Some "ListBullet")) rest
  end.

(** The loop of lines 99 to 105. *)
Fixpoint add_students (doc : Document) (records : list StudentRecord) : Document :=
  match records with
  | [] => doc
  | r :: rest =>
      let header_line := name r ++ ", " ++ str (group r) ++ ", " ++ email r in
      let doc := add_heading doc header_line 1 in
      add_students (add_bullets doc (missed r)) rest
  end.

Definition build_word_report_bytes (records : list StudentRecord)
  (title : string) : Document :=
  let doc := add_heading [] title 0 in
  match records with
  | [] => add_paragraph doc no_students_message None
  | _ :: _ => add_students doc records
  end.

(** ** The CSV download of [main], lines 214 to 220 *)

Module Csv.

(** [os.linesep], the line terminator [to_csv] uses by default. *)
Inductive platform := Posix | Windows.

Definition os_linesep (p : platform) : string :=
  match p with
  | Posix => newline
  | Windows => String CR newline
  end.

(** The writer under [csv.QUOTE_ALL]: a quote inside a field is doubled
    and every field is wrapped in quotes. *)
Fixpoint escape (s : string) : string :=
  match s with
  | EmptyString => EmptyString
  | String c s' =>
      if Ascii.eqb c DQUOTE
      then String DQUOTE (String DQUOTE (escape s'))
      else String c (escape s')
  end.

Definition quote_field (s : string) : string :=
  String DQUOTE (escape s ++ String DQUOTE EmptyString).

(** [writer.writerow(fields)] on the text written so far. *)
Definition writerow (buf lineterminator : string) (fields : list string)
  : string :=
  buf ++ Py.join "," (map quote_field fields) ++ lineterminator.

Definition header : list string := ["FirstName"; "Email"; "MissedHomeworks"].

(** The columns of [pd.DataFrame(rows)]: the keys of the dictionaries. *)
Definition frame_columns (rows : list MailMergeRow) : list string :=
  match rows with
  | [] => []
  | _ :: _ => header
  end.

Definition row_values (r : MailMergeRow) : list string :=
  [FirstName r; Email r; MissedHomeworks r].

Fixpoint write_rows (buf lineterminator : string) (rows : list MailMergeRow)
  : string :=
  match rows with
  | [] => buf
  | r :: rest =>
      write_rows (writerow buf lineterminator (row_values r)) lineterminator rest
  end.

(** [mail_df.to_csv(index=False, quoting=csv.QUOTE_ALL)] *)
Definition to_csv (p : platform) (rows : list MailMergeRow) : string :=
  write_rows (writerow EmptyString (os_linesep p) (frame_columns rows))
    (os_linesep p) rows.

(** UTF-8 of one code point below 256. *)
Definition utf8_char (c : ascii) : list Byte.byte :=
  let n := N_of_ascii c in
  if (n <? 128)%N then [byte_of_ascii c]
  else [byte_of_ascii (ascii_of_N (192 + n / 64));
        byte_of_ascii (ascii_of_N (128 + n mod 64))].

Fixpoint utf8 (s : string) : list Byte.byte :=
  match s with
  | EmptyString => []
  | String c s' => (utf8_char c ++ utf8 s')%list
  end.

Definition BOM : list Byte.byte := [Byte.xef; Byte.xbb; Byte.xbf].

(** [s.encode("utf-8-sig")] *)
Definition encode_utf8_sig (s : string) : list Byte.byte := (BOM ++ utf8 s)%list.

End Csv.

(** What [main] offers for download as [mail_merge_data.csv]: nothing when
    there are no records (line 214), else the encoded table. *)
Definition mail_merge_csv_bytes (p : Csv.platform) (records : list StudentRecord)
  : result (option (list Byte.byte)) :=
  match records with
  | [] => Ok None
  | _ :: _ =>
      mail_df <- build_mail_merge_dataframe records ;;
      Ok (Some (Csv.encode_utf8_sig (Csv.to_csv p mail_df)))
  end.

(** ** A reader of quoted CSV

    The reader the round trip is stated against: comma-separated fields,
    a field optionally wrapped in double quotes, inside which a doubled
    quote stands for one quote and commas and line breaks are literal;
    records end at LF, CR or CR LF. *)

Module CsvReader.

Inductive mode :=
| RecordStart
| AfterCR
| FieldStart
| InField
| InQuoted
| QuoteSeen.

Record state := {
  st_mode : mode;
  st_field : string;
  st_row : list string;
  st_rows : list (list string)
}.

Definition init : state :=
  {| st_mode := RecordStart; st_field := EmptyString;
     st_row := []; st_rows := [] |}.

Definition push (f : string) (c : ascii) : string := f ++ String c EmptyString.

Definition end_field (st : state) : state :=
  {| st_mode := FieldStart; st_field := EmptyString;
     st_row := (st_row st ++ [st_field st])%list; st_rows := st_rows st |}.

Definition end_record (m : mode) (st : state) (fields : list string) : state :=
  {| st_mode := m; st_field := EmptyString;
     st_row := []; st_rows := (st_rows st ++ [fields])%list |}.

Definition in_mode (m : mode) (st : state) (f : string) : state :=
  {| st_mode := m; st_field := f;
     st_row := st_row st; st_rows := st_rows st |}.

Definition terminator (c : ascii) : option mode :=
  if Ascii.eqb c LF then Some RecordStart
  else if Ascii.eqb c CR then Some AfterCR
  else None.

Definition step (st : state) (c : ascii) : state :=
  match st_mode st with
  | AfterCR =>
      if Ascii.eqb c LF then in_mode RecordStart st EmptyString
      else
        match terminator c with
        | Some m => end_record m st []
        | None =>
            if Ascii.eqb c DQUOTE then in_mode InQuoted st EmptyString
            else if Ascii.eqb c "," then end_field st
            else in_mode InField st (push EmptyString c)
        end
  | RecordStart =>
      match terminator c with
      | Some m => end_record m st []
      | None =>
          if Ascii.eqb c DQUOTE then in_mode InQuoted st EmptyString
          else if Ascii.eqb c "," then end_field st
          else in_mode InField st (push EmptyString c)
      end
  | FieldStart =>
      match terminator c with
      | Some m => end_record m st (st_row st ++ [EmptyString])%list
      | None =>
          if Ascii.eqb c DQUOTE then in_mode InQuoted st EmptyString
          else if Ascii.eqb c "," then end_field st
          else in_mode InField st (push EmptyString c)
      end
  | InField =>
      match terminator c with
      | Some m => end_record m st (st_row st ++ [st_field st])%list
      | None =>
          if Ascii.eqb c "," then end_field st
          else in_mode InField st (push (st_field st) c)
      end
  | InQuoted =>
      if Ascii.eqb c DQUOTE then in_mode QuoteSeen st (st_field st)
      else in_mode InQuoted st (push (st_field st) c)
  | QuoteSeen =>
      match terminator c with
      | Some m => end_record m st (st_row st ++ [st_field st])%list
      | None =>
          if Ascii.eqb c DQUOTE then in_mode InQuoted st (push (st_field st) c)
          else if Ascii.eqb c "," then end_field st
          else in_mode InField st (push (st_field st) c)
      end
  end.

Fixpoint run (st : state) (s : string) : state :=
  match s with
  | EmptyString => st
  | String c s' => run (step st c) s'
  end.

Definition finish (st : state) : list (list string) :=
  match st_mode st with
  | RecordStart | AfterCR => st_rows st
  | FieldStart => (st_rows st ++ [st_row st ++ [EmptyString]])%list
  | InField | InQuoted | QuoteSeen =>
      (st_rows st ++ [st_row st ++ [st_field st]])%list
  end.

Definition parse (s : string) : list (list string) := finish (run init s).

(** Decoding of UTF-8 restricted to the code points a [string] holds. *)
Fixpoint decode_utf8 (bs : list Byte.byte) : option string :=
  match bs with
  | [] => Some EmptyString
  | b :: rest =>
      let n := Byte.to_N b in
      if (n <? 128)%N then
        option_map (String (ascii_of_byte b)) (decode_utf8 rest)
      else if ((n =? 194) || (n =? 195))%N then
        match rest with
        | b2 :: rest' =>
            let n2 := Byte.to_N b2 in
            if ((128 <=? n2) && (n2 <? 192))%N then
              option_map (String (ascii_of_N ((n - 192) * 64 + (n2 - 128))))
                (decode_utf8 rest')
            else None
        | [] => None
        end
      else None
  end.

(** Decoding as [utf-8-sig]: a leading byte-order mark is dropped. *)
Definition decode_utf8_sig (bs : list Byte.byte) : option string :=
  match bs with
  | Byte.xef :: Byte.xbb :: Byte.xbf :: rest => decode_utf8 rest
  | _ => decode_utf8 bs
  end.

End CsvReader.

(** ** Vocabulary of the specification *)

(** Two iteration orders a set can have. *)
Definition insertion_order : SetOrder :=
  {| set_iter := fun l => l; set_iter_perm := fun l => Permutation_refl l |}.

Definition rotate (l : list string) : list string :=
  match l with
  | [] => []
  | x :: l' => l' ++ [x]
  end.

Definition rotated_order : SetOrder :=
  {| set_iter := rotate;
     set_iter_perm := fun l =>
       match l with
       | [] => Permutation_refl []
       | x :: l' => Permutation_sym (Permutation_cons_append l' x)
       end |}.

(** The identity columns of a configuration. *)
Definition identity_columns (cfg : Config) : list string :=
  [first_name_col cfg; last_name_col cfg; group_col cfg; email_col cfg].

(** The assignment columns: those at or after the start index. *)
Definition score_columns_of (df : DataFrame) (cfg : Config) : list string :=
  Py.slice_from (columns df) (scores_start_index cfg).

Fixpoint distinct (l : list string) : bool :=
  match l with
  | [] => true
  | x :: l' => negb (mem x l') && distinct l'
  end.

(** The invariant of a dataset: column names are unique and every row has
    one cell per column. *)
Definition well_formed (df : DataFrame) : bool :=
  distinct (columns df)
  && forallb (fun r => Nat.eqb (List.length r) (List.length (columns df))) (data df).

(** Every configured identity column is a column of the dataset. *)
Definition identity_present (df : DataFrame) (cfg : Config) : bool :=
  forallb (fun c => mem c (columns df)) (identity_columns cfg).

(** A dataset and configuration that pass both validations. *)
Definition valid_input (df : DataFrame) (cfg : Config) : bool :=
  well_formed df
  && identity_present df cfg
  && negb (Nat.eqb (List.length (score_columns_of df cfg)) 0).

(** The value a row holds in a column (NaN where the row has none). *)
Definition cell (row : Series) (c : string) : scalar :=
  match getitem row c with
  | Ok v => v
  | Raise _ => SFloat S754_nan
  end.

(** A value is present when it is not the missing marker. *)
Definition present (v : scalar) : Prop := v <> SFloat S754_nan.

(** The number a cell denotes, when it denotes one. *)
Definition numeric_value (v : scalar) : option Q :=
  match v with
  | SInt z => Some (inject_Z z)
  | SFloat (S754_zero _) => Some 0%Q
  | SFloat (S754_finite s m e) =>
      Some (if s then Qopp (FloatRepr.q2 (Zpos m) e) else FloatRepr.q2 (Zpos m) e)
  | SFloat _ => None
  | SStr _ => None
  end.

Definition numerically_zero (v : scalar) : Prop :=
  exists q, numeric_value v = Some q /\ Qeq q 0.

(** The missed assignments of a row and the record of a row, in closed
    form. *)
Definition is_miss (v : scalar) : bool := notna v && eq_zero v.

Definition missed_of (score_columns : list string) (row : Series) : list string :=
  filter (fun c => is_miss (cell row c)) score_columns.

Definition token (v : scalar) : string := Py.strip (str v).

Definition record_of (cfg : Config) (score_columns : list string) (row : Series)
  : StudentRecord :=
  {| name := Py.strip (token (cell row (first_name_col cfg)) ++ " "
                       ++ token (cell row (last_name_col cfg)));
     group := cell row (group_col cfg);
     email := token (cell row (email_col cfg));
     missed := missed_of score_columns row |}.

Definition has_miss (score_columns : list string) (row : Series) : bool :=
  match missed_of score_columns row with
  | [] => false
  | _ :: _ => true
  end.

(** The order of [sorted] on strings. *)
Definition le_str (a b : string) : Prop := String.leb a b = true.

(** A row has a value under each of the given labels. *)
Definition has_columns (cols : list string) (row : Series) : Prop :=
  forall c, In c cols -> exists v, getitem row c = Ok v.

(** A text does not begin with whitespace. *)
Definition starts_clean (s : string) : Prop :=
  match s with
  | EmptyString => True
  | String c _ => Py.isspace c = false
  end.

(** A text is blank when it has only whitespace. *)
Fixpoint blank (s : string) : bool :=
  match s with
  | EmptyString => true
  | String c s' => Py.isspace c && blank s'
  end.

(** The name token as the specification words it: empty for an absent or
    blank value, the trimmed value otherwise. *)
Definition claimed_token (v : scalar) : string :=
  match v with
  | SFloat S754_nan => EmptyString
  | _ => Py.strip (str v)
  end.

Definition claimed_name (first last : scalar) : string :=
  Py.strip (claimed_token first ++ " " ++ claimed_token last).

(** The mail-merge row of a record, in closed form. *)
Definition mail_row_of (r : StudentRecord) : MailMergeRow :=
  {| FirstName := hd EmptyString (Py.split (name r));
     Email := email r;
     MissedHomeworks := Py.join newline (missed r) |}.

(** The record the extractor returns for [blank_name_sheet]. *)
Definition blank_name_record : StudentRecord :=
  {| name := EmptyString; group := SInt 1; email := "a@e.edu";
     missed := ["HW1"] |}.

(** The blocks of one student in the document. *)
Definition student_blocks (r : StudentRecord) : list block :=
  Heading (name r ++ ", " ++ str (group r) ++ ", " ++ email r) 1
  :: map (fun a => Paragraph (" " ++ a) (Some "ListBullet")) (missed r).

(** One line of the CSV text. *)
Definition csv_line (p : Csv.platform) (fields : list string) : string :=
  Py.join "," (map Csv.quote_field fields) ++ Csv.os_linesep p.

(** The text made of the given lines one after the other. *)
Definition lines_text (lines : list string) : string :=
  fold_right append EmptyString lines.

(** ** Sample sheets *)

Definition default_config : Config :=
  {| first_name_col := "First Name"; last_name_col := "Last Name";
     group_col := "Group"; email_col := "Email"; scores_start_index := 4 |}.

Definition NaN : scalar := SFloat S754_nan.

Definition gradebook_columns : list string :=
  ["First Name"; "Last Name"; "Group"; "Email"; "HW1"; "HW2"; "HW3"].

(** Three students: two misses, none, one (with a blank next to a zero). *)
Definition gradebook : DataFrame :=
  {| columns := gradebook_columns;
     data :=
       [ [SStr "Ann"; SStr "Lee"; SInt 1; SStr "a@e.edu"; SInt 0; SInt 5; SInt 0];
         [SStr "Bo"; SStr "Ray"; SInt 2; SStr "b@e.edu"; SInt 3; SStr "late"; NaN];
         [SStr " Cy "; SStr "Day"; SInt 1; SStr " c@e.edu"; NaN;
          SFloat (S754_zero false); SInt 9] ] |}.

(** The third row of [gradebook] as [iterrows] yields it. *)
Definition cy_row : Series :=
  combine gradebook_columns
    [SStr " Cy "; SStr "Day"; SInt 1; SStr " c@e.edu"; NaN;
     SFloat (S754_zero false); SInt 9].

(** A sheet without the e-mail column and with no assignment columns. *)
Definition no_email_sheet : DataFrame :=
  {| columns := ["First Name"; "Last Name"; "Group"];
     data := [[SStr "Ann"; SStr "Lee"; SInt 1]] |}.

(** A sheet of the four identity columns only. *)
Definition identity_only_sheet : DataFrame :=
  {| columns := ["First Name"; "Last Name"; "Group"; "Email"];
     data := [[SStr "Ann"; SStr "Lee"; SInt 1; SStr "a@e.edu"]] |}.

(** The default column names with a start index past any of the sheets. *)
Definition far_config : Config :=
  {| first_name_col := "First Name"; last_name_col := "Last Name";
     group_col := "Group"; email_col := "Email"; scores_start_index := 9 |}.

(** A sheet with one column only. *)
Definition one_column_sheet : DataFrame :=
  {| columns := ["Student"]; data := [[SStr "Ann Lee"]] |}.

(** A sheet whose only student has both name cells empty. *)
Definition unnamed_sheet : DataFrame :=
  {| columns := ["First Name"; "Last Name"; "Group"; "Email"; "HW1"];
     data := [[NaN; NaN; SInt 1; SStr "a@e.edu"; SInt 0]] |}.

(** The record of the specification's CSV example. *)
Definition ann_record : StudentRecord :=
  {| name := "Ann Lee"; group := SInt 1; email := "a@e.edu";
     missed := ["HW1"; "HW3"] |}.

(** A sheet whose only student has blank texts as names. *)
Definition blank_name_sheet : DataFrame :=
  {| columns := ["First Name"; "Last Name"; "Group"; "Email"; "HW1"];
     data := [[SStr " "; SStr "  "; SInt 1; SStr "a@e.edu"; SInt 0]] |}.

(** ** [repr] of a [str] and [str] of an exception *)

Module PyRepr.

Definition TAB : ascii := ascii_of_nat 9.
Definition BACKSLASH : ascii := ascii_of_nat 92.
Definition APOSTROPHE : ascii := ascii_of_nat 39.

(** [c.isprintable()] on the code points below 256. *)
Definition isprintable (c : ascii) : bool :=
  let n := N_of_ascii c in
  (((32 <=? n) && (n <? 127)) || ((161 <=? n) && negb (n =? 173)))%N.

Definition hex_digit (n : N) : ascii :=
  match String.get (N.to_nat n) "0123456789abcdef" with
  | Some c => c
  | None => "0"%char
  end.

Fixpoint contains (c : ascii) (s : string) : bool :=
  match s with
  | EmptyString => false
  | String d s' => Ascii.eqb c d || contains c s'
  end.

Definition repr_char (quote c : ascii) : string :=
  if Ascii.eqb c quote || Ascii.eqb c BACKSLASH
  then String BACKSLASH (String c EmptyString)
  else if Ascii.eqb c TAB then String BACKSLASH "t"
  else if Ascii.eqb c LF then String BACKSLASH "n"
  else if Ascii.eqb c CR then String BACKSLASH "r"
  else if isprintable c then String c EmptyString
  else
    let n := N_of_ascii c in
    String BACKSLASH
      (String "x" (String (hex_digit (n / 16))
                     (String (hex_digit (n mod 16)) EmptyString))).

Fixpoint repr_body (quote : ascii) (s : string) : string :=
  match s with
  | EmptyString => EmptyString
  | String c s' => repr_char quote c ++ repr_body quote s'
  end.

(** [repr(s)]: single quotes, unless the text has one and no double
    quote. *)
Definition repr_str (s : string) : string :=
  let quote :=
    if contains APOSTROPHE s && negb (contains DQUOTE s)
    then DQUOTE else APOSTROPHE in
  String quote (repr_body quote s ++ String quote EmptyString).

End PyRepr.

(** [str(e)]: the message of a [ValueError], the [repr] of the key of a
    [KeyError], the interpreter's message for a list index. *)
Definition exception_str (e : exception) : string :=
  match e with
  | ValueError msg => msg
  | KeyError key => PyRepr.repr_str key
  | IndexError => "list index out of range"
  end.

(** ** The desktop variant: [src/excel_to_word.py] *)

Module ExcelToWord.

(** A Python [dict] with [str] keys: the items in insertion order.
    Assigning to a key that is there replaces its value in place. *)
Definition dict (V : Type) := list (string * V).

Fixpoint dict_setitem {V} (d : dict V) (k : string) (v : V) : dict V :=
  match d with
  | [] => [(k, v)]
  | (k', v') :: d' =>
      if String.eqb k' k then (k', v) :: d'
      else (k', v') :: dict_setitem d' k v
  end.

Fixpoint dict_getitem {V} (d : dict V) (k : string) : result V :=
  match d with
  | [] => Raise (KeyError k)
  | (k', v') :: d' => if String.eqb k' k then Ok v' else dict_getitem d' k
  end.

(** The inner loop, lines 16 to 18: the list under [student_name] grows
    in place. *)
Fixpoint scan_columns (row : Series) (student_name : string)
  (score_columns : list string) (missed_assignments : dict (list string))
  : result (dict (list string)) :=
  match score_columns with
  | [] => Ok missed_assignments
  | column :: rest =>
      val <- getitem row column ;;
      if eq_zero val then
        l <- dict_getitem missed_assignments student_name ;;
        scan_columns row student_name rest
          (dict_setitem missed_assignments student_name (l ++ [column])%list)
      else scan_columns row student_name rest missed_assignments
  end.

(** The loop over the rows, lines 12 to 18. *)
Fixpoint scan_rows (score_columns : list string) (rows : list Series)
  (missed_assignments : dict (list string)) : result (dict (list string)) :=
  match rows with
  | [] => Ok missed_assignments
  | row :: rest =>
      first <- getitem row "First Name" ;;
      last <- getitem row "Last Name" ;;
      let student_name := str first ++ " " ++ str last in
      d <- scan_columns row student_name score_columns
             (dict_setitem missed_assignments student_name []) ;;
      scan_rows score_columns rest d
  end.

(** [generate_missed_homework_report], on the frame [read_excel] returns
    for the path. *)
Definition generate_missed_homework_report (df : DataFrame)
  : result (dict (list string)) :=
  let score_columns := Py.slice_from (columns df) 4 in
  scan_rows score_columns (iterrows df) [].

(** The loop of lines 28 and 29. *)
Fixpoint add_assignments (doc : Document) (assignments : list string)
  : Document :=
  match assignments with
  | [] => doc
  | assignment :: rest =>
      add_assignments
        (add_paragraph doc (" " ++ assignment) (Some "ListBullet")) rest
  end.

(** The loop of lines 26 to 30. *)
Fixpoint add_items (doc : Document) (items : dict (list string)) : Document :=
  match items with
  | [] => doc
  | (student, assignments) :: rest =>
      let doc := add_heading doc student 1 in
      let doc := add_assignments doc assignments in
      add_items (add_paragraph doc EmptyString None) rest
  end.

(** [write_report_to_word]: the document that is saved under the path. *)
Definition write_report_to_word (missed_assignments : dict (list string))
  : Document :=
  add_items (add_heading [] "Missed Homework Report" 0) missed_assignments.

End ExcelToWord.

(** ** [main] of [src/e2w.py]

    The sidebar widgets are the inputs: the title, the configuration and
    what the uploader holds (nothing, the message of the exception
    [read_excel] raised, or the frame it returned).  The result is the
    sequence of elements the calls after the uploader put on the page, and
    the exception that ends the run, if one escapes. *)

Inductive payload :=
| DocxBytes (doc : Document)
| CsvBytes (bytes : list Byte.byte).

(** A row of the table of detected students: one of the dictionaries of
    [table_rows], lines 193 to 200. *)
Record TableRow := {
  Student : string;
  Group : scalar;
  Email_ : string;
  Missed_assignments : string
}.

(** What a call puts on the page.  [st_dataframe] is the preview of the
    sheet, line 153; [st_table] is the [st.dataframe] call of line 201 on
    the frame made of the table rows; the two [metric] calls of lines 187
    and 188 are on the columns of [st.columns(2)]. *)
Inductive element :=
| st_info (body : string)
| st_error (body : string)
| st_success (body : string)
| st_subheader (body : string)
| st_dataframe (df : DataFrame)
| st_table (rows : list TableRow)
| st_metric (label : string) (value : nat)
| st_divider
| st_download_button (label : string) (data : payload)
    (file_name mime : string).

Definition docx_mime : string :=
  "application/vnd.openxmlformats-officedocument.wordprocessingml.document".

Definition docx_button (doc : Document) : element :=
  st_download_button "Download Word Report (.docx)" (DocxBytes doc)
    "missed_homework_report.docx" docx_mime.

(** [title.strip() or "Missed Homework Report"] *)
Definition report_title (title : string) : string :=
  match Py.strip title with
  | EmptyString => "Missed Homework Report"
  | t => t
  end.

(** The loop of lines 191 to 200. *)
Fixpoint table_loop (records : list StudentRecord) (table_rows : list TableRow)
  : list TableRow :=
  match records with
  | [] => table_rows
  | r :: rest =>
      table_loop rest
        (table_rows ++ [{| Student := name r; Group := group r;
                           Email_ := email r;
                           Missed_assignments := Py.join ", " (missed r) |}])%list
  end.

(** [sum(len(r["missed"]) for r in records)] *)
Definition total_missed_of (records : list StudentRecord) : nat :=
  fold_left (fun acc r => (acc + List.length (missed r))%nat) records 0%nat.

Definition main {order : SetOrder} (p : Csv.platform) (title : string)
  (cfg : Config) (uploaded : option (string + DataFrame))
  : list element * option exception :=
  match uploaded with
  | None => ([st_info "Upload an Excel file to begin."], None)
  | Some (inl e) => ([st_error ("Could not read Excel file: " ++ e)], None)
  | Some (inr df) =>
      let page := [st_subheader "Preview"; st_dataframe df] in
      match generate_missed_homework_report df cfg with
      | Raise e => ((page ++ [st_error (exception_str e)])%list, None)
      | Ok records =>
          let page :=
            (page ++ [st_subheader "Detected students with missed homework"])%list
          in
          match records with
          | [] =>
              let docx_bytes :=
                build_word_report_bytes records (report_title title) in
              ((page
                ++ [st_success
                      "No students with missed homework (score = 0) were found.";
                    docx_button docx_bytes])%list, None)
          | _ :: _ =>
              let total_students := List.length records in
              let total_missed := total_missed_of records in
              let docx_bytes :=
                build_word_report_bytes records (report_title title) in
              let page :=
                (page
                 ++ [st_metric "Students with misses" total_students;
                     st_metric "Total missed items" total_missed;
                     st_table (table_loop records []);
                     st_divider;
                     docx_button docx_bytes])%list in
              match build_mail_merge_dataframe records with
              | Raise e => (page, Some e)
              | Ok mail_df =>
                  let csv_bytes :=
                    Csv.encode_utf8_sig (Csv.to_csv p mail_df) in
                  ((page
                    ++ [st_download_button "Download Mail Merge CSV"
                          (CsvBytes csv_bytes) "mail_merge_data.csv"
                          "text/csv"])%list,
                   None)
              end
          end
      end
  end.

(** ** Further vocabulary *)

(** A text has no whitespace. *)
Fixpoint no_space (s : string) : bool :=
  match s with
  | EmptyString => true
  | String c s' => negb (Py.isspace c) && no_space s'
  end.

(** A text is empty or begins with whitespace. *)
Definition at_word_end (s : string) : Prop :=
  match s with
  | EmptyString => True
  | String c _ => Py.isspace c = true
  end.

(** The headings of a level and the bullet paragraphs of a document. *)
Definition is_heading (level : Z) (b : block) : bool :=
  match b with
  | Heading _ l => l =? level
  | Paragraph _ _ => false
  end.

Definition is_bullet (b : block) : bool :=
  match b with
  | Paragraph _ (Some style) => String.eqb style "ListBullet"
  | _ => false
  end.

Definition count_blocks (f : block -> bool) (doc : Document) : nat :=
  List.length (filter f doc).

(** The elements of a page that offer a download. *)
Definition is_docx_button (e : element) : bool :=
  match e with
  | st_download_button _ (DocxBytes _) _ _ => true
  | _ => false
  end.

Definition is_csv_button (e : element) : bool :=
  match e with
  | st_download_button _ (CsvBytes _) _ _ => true
  | _ => false
  end.

Definition is_download (e : element) : bool :=
  match e with
  | st_download_button _ _ _ _ => true
  | _ => false
  end.

(** The name the desktop variant gives the student of a row. *)
Definition desktop_name (row : Series) : string :=
  str (cell row "First Name") ++ " " ++ str (cell row "Last Name").

(** The entries of a dictionary built by assigning the given items in
    order: a repeated key keeps its first place and takes the later
    value. *)
Definition assign_all {V} (items : list (string * V))
  : ExcelToWord.dict V :=
  fold_left (fun d kv => ExcelToWord.dict_setitem d (fst kv) (snd kv)) items [].

(** The blocks the desktop report has for one student. *)
Definition desktop_blocks (item : string * list string) : list block :=
  (Heading (fst item) 1
   :: map (fun a => Paragraph (" " ++ a) (Some "ListBullet")) (snd item)
   ++ [Paragraph EmptyString None])%list.

(** The default column names with the start index one from the end. *)
Definition last_column_config : Config :=
  {| first_name_col := "First Name"; last_name_col := "Last Name";
     group_col := "Group"; email_col := "Email"; scores_start_index := -1 |}.

(** The records of [gradebook] under the default configuration. *)
Definition gradebook_records : list StudentRecord :=
  [ {| name := "Ann Lee"; group := SInt 1; email := "a@e.edu";
       missed := ["HW1"; "HW3"] |};
    {| name := "Cy Day"; group := SInt 1; email := "c@e.edu";
       missed := ["HW2"] |} ].

(** What the desktop variant needs of a frame: the invariant of a dataset
    and the two name columns it reads. *)
Definition desktop_ready (df : DataFrame) : bool :=
  well_formed df
  && mem "First Name" (columns df) && mem "Last Name" (columns df).

Definition nonempty {A} (l : list A) : bool :=
  match l with
  | [] => false
  | _ :: _ => true
  end.

(** A sheet in which the first and the third row bear the same name. *)
Definition twins_sheet : DataFrame :=
  {| columns := ["First Name"; "Last Name"; "Group"; "Email"; "HW1"; "HW2"];
     data :=
       [ [SStr "Ann"; SStr "Lee"; SInt 1; SStr "a@e.edu"; SInt 0; SInt 7];
         [SStr "Bo"; SStr "Ray"; SInt 2; SStr "b@e.edu"; SInt 3; SInt 4];
         [SStr "Ann"; SStr "Lee"; SInt 3; SStr "a2@e.edu"; SInt 8; SInt 0] ] |}.

(** The third row of [twins_sheet] as [iterrows] yields it. *)
Definition second_ann_row : Series :=
  combine (columns twins_sheet)
    [SStr "Ann"; SStr "Lee"; SInt 3; SStr "a2@e.edu"; SInt 8; SInt 0].

(** A sheet with rows and without the last-name column. *)
Definition no_last_name_sheet : DataFrame :=
  {| columns := ["First Name"; "Group"; "Email"; "Name"; "HW1"];
     data := [[SStr "Ann"; SInt 1; SStr "a@e.edu"; SStr "Lee"; SInt 0]] |}.

(** * Properties *)

(** ** Sets *)

Section SetFacts.
Context {order : SetOrder}.

Lemma set_iter_In (l : list string) (x : string) :
  In x (set_iter l) <-> In x l.
Proof.
  split; apply Permutation_in;
    [ apply set_iter_perm | apply Permutation_sym, set_iter_perm ].
Qed.

Lemma set_iter_NoDup (l : list string) : NoDup l -> NoDup (set_iter l).
Proof.
  intros H. eapply Permutation_NoDup; [ | exact H ].
  apply Permutation_sym, set_iter_perm.
Qed.

Lemma mem_In (x : string) (s : list string) : mem x s = true <-> In x s.
Proof.
  unfold mem. rewrite existsb_exists. split.
  - intros [y [Hy Heq]]. apply String.eqb_eq in Heq. now subst.
  - intros H. exists x. split; [ exact H | apply String.eqb_refl ].
Qed.

Lemma mk_set_In (l : list string) (x : string) : In x (mk_set l) <-> In x l.
Proof. unfold mk_set. rewrite set_iter_In. apply nodup_In. Qed.

Lemma mk_set_NoDup (l : list string) : NoDup (mk_set l).
Proof. apply set_iter_NoDup, NoDup_nodup. Qed.

Lemma set_difference_In (a b : list string) (x : string) :
  In x (set_difference a b) <-> In x a /\ ~ In x b.
Proof.
  unfold set_difference. rewrite set_iter_In, filter_In.
  rewrite negb_true_iff, <- not_true_iff_false, mem_In. reflexivity.
Qed.

Lemma set_difference_NoDup (a b : list string) :
  NoDup a -> NoDup (set_difference a b).
Proof. intros H. apply set_iter_NoDup, NoDup_filter, H. Qed.

(** The columns the extractor reports as missing. *)
Lemma missing_In (cols req : list string) (x : string) :
  In x (set_difference (mk_set req) (mk_set cols))
  <-> In x req /\ ~ In x cols.
Proof. rewrite set_difference_In, !mk_set_In. reflexivity. Qed.

Lemma missing_NoDup (cols req : list string) :
  NoDup (set_difference (mk_set req) (mk_set cols)).
Proof. apply set_difference_NoDup, mk_set_NoDup. Qed.
End SetFacts.

Lemma list_empty_or_In {A} (l : list A) : l = [] \/ exists x, In x l.
Proof. destruct l as [| x l]; [ now left | right; exists x; now left ]. Qed.

(** ** Sorting of strings *)

Lemma ascii_compare_refl (a : ascii) : Ascii.compare a a = Eq.
Proof. unfold Ascii.compare. apply N.compare_refl. Qed.

Lemma ascii_compare_lt_trans (a b c : ascii) :
  Ascii.compare a b = Lt -> Ascii.compare b c = Lt -> Ascii.compare a c = Lt.
Proof.
  unfold Ascii.compare. rewrite !N.compare_lt_iff. apply N.lt_trans.
Qed.

Lemma string_compare_lt_trans (s1 : string) :
  forall s2 s3, String.compare s1 s2 = Lt -> String.compare s2 s3 = Lt ->
                String.compare s1 s3 = Lt.
Proof.
  induction s1 as [| a s1 IH]; intros [| b s2] [| c s3]; simpl;
    try discriminate; try reflexivity.
  destruct (Ascii.compare a b) eqn:Hab; try discriminate;
    destruct (Ascii.compare b c) eqn:Hbc; try discriminate; intros H12 H23.
  - apply Ascii.compare_eq_iff in Hab, Hbc. subst.
    rewrite ascii_compare_refl. eapply IH; eassumption.
  - apply Ascii.compare_eq_iff in Hab. subst. now rewrite Hbc.
  - apply Ascii.compare_eq_iff in Hbc. subst. now rewrite Hab.
  - now rewrite (ascii_compare_lt_trans _ _ _ Hab Hbc).
Qed.

Lemma leb_trans (s1 s2 s3 : string) :
  String.leb s1 s2 = true -> String.leb s2 s3 = true -> String.leb s1 s3 = true.
Proof.
  unfold String.leb.
  destruct (String.compare s1 s2) eqn:H12; try discriminate;
    destruct (String.compare s2 s3) eqn:H23; try discriminate; intros _ _.
  - apply String.compare_eq_iff in H12. subst. now rewrite H23.
  - apply String.compare_eq_iff in H12. subst. now rewrite H23.
  - apply String.compare_eq_iff in H23. subst. now rewrite H12.
  - now rewrite (string_compare_lt_trans _ _ _ H12 H23).
Qed.

Lemma insert_sorted_perm (x : string) (l : list string) :
  Permutation (Py.insert_sorted x l) (x :: l).
Proof.
  induction l as [| y l IH]; simpl; [ reflexivity | ].
  destruct (String.leb x y); [ reflexivity | ].
  rewrite IH. apply perm_swap.
Qed.

Lemma sorted_perm (l : list string) : Permutation (Py.sorted l) l.
Proof.
  induction l as [| x l IH]; simpl; [ reflexivity | ].
  rewrite insert_sorted_perm. now apply perm_skip.
Qed.

Lemma insert_sorted_strongly (x : string) (l : list string) :
  StronglySorted le_str l -> StronglySorted le_str (Py.insert_sorted x l).
Proof.
  induction 1 as [| y l Hl IH Hy]; simpl.
  - constructor; constructor.
  - destruct (String.leb x y) eqn:Hxy.
    + constructor; [ now constructor | ].
      constructor; [ exact Hxy | ].
      eapply Forall_impl; [ | exact Hy ].
      intros z Hz. eapply leb_trans; eassumption.
    + constructor; [ exact IH | ].
      eapply Permutation_Forall; [ apply Permutation_sym, insert_sorted_perm | ].
      constructor; [ | exact Hy ].
      destruct (String.leb_total x y) as [H | H]; [ congruence | exact H ].
Qed.

Lemma sorted_strongly (l : list string) : StronglySorted le_str (Py.sorted l).
Proof.
  induction l as [| x l IH]; simpl; [ constructor | ].
  now apply insert_sorted_strongly.
Qed.

(** A list has one sorted arrangement only. *)
Lemma strongly_sorted_unique (l1 : list string) :
  forall l2, StronglySorted le_str l1 -> StronglySorted le_str l2 ->
             Permutation l1 l2 -> l1 = l2.
Proof.
  induction l1 as [| x l1 IH]; intros l2 H1 H2 HP.
  - apply Permutation_nil in HP. now subst.
  - destruct l2 as [| y l2].
    + apply Permutation_sym, Permutation_nil in HP. discriminate.
    + inversion H1 as [| ? ? Hs1 Hx]; subst.
      inversion H2 as [| ? ? Hs2 Hy]; subst.
      assert (Hxy : x = y).
      { assert (Hin1 : In x (y :: l2))
          by (eapply Permutation_in; [ exact HP | now left ]).
        assert (Hin2 : In y (x :: l1))
          by (eapply Permutation_in;
              [ apply Permutation_sym; exact HP | now left ]).
        destruct Hin1 as [-> | Hin1]; [ reflexivity | ].
        destruct Hin2 as [-> | Hin2]; [ reflexivity | ].
        rewrite Forall_forall in Hx, Hy.
        apply String.leb_antisym; [ now apply Hx | now apply Hy ]. }
      subst y. f_equal.
      apply IH; [ assumption | assumption | ].
      eapply Permutation_cons_inv; exact HP.
Qed.

Lemma sorted_of_perm (l1 l2 : list string) :
  Permutation l1 l2 -> Py.sorted l1 = Py.sorted l2.
Proof.
  intros HP. apply strongly_sorted_unique; try apply sorted_strongly.
  rewrite !sorted_perm. exact HP.
Qed.

(** ** Validation *)

Section Validation.
Context {order : SetOrder}.
Variable df : DataFrame.
Variable cfg : Config.

Let missing : list string :=
  set_difference (mk_set (identity_columns cfg)) (mk_set (columns df)).

Lemma identity_present_iff :
  identity_present df cfg = true
  <-> forall c, In c (identity_columns cfg) -> In c (columns df).
Proof.
  unfold identity_present. rewrite forallb_forall.
  split; intros H c Hc; apply mem_In; now apply H.
Qed.

Lemma missing_nil_iff : missing = [] <-> identity_present df cfg = true.
Proof.
  rewrite identity_present_iff. subst missing. split.
  - intros Hnil c Hc.
    destruct (in_dec string_dec c (columns df)) as [Hin | Hout]; [ exact Hin | ].
    assert (Hm : In c (set_difference (mk_set (identity_columns cfg))
                                       (mk_set (columns df))))
      by (apply missing_In; now split).
    rewrite Hnil in Hm. destruct Hm.
  - intros Hall.
    destruct (list_empty_or_In
                (set_difference (mk_set (identity_columns cfg))
                                (mk_set (columns df)))) as [Hnil | [x Hx]];
      [ exact Hnil | ].
    apply missing_In in Hx. destruct Hx as [Hreq Hout].
    exfalso. apply Hout. now apply Hall.
Qed.

(** The first guard, lines 46 to 49. *)
Lemma generate_missing :
  identity_present df cfg = false ->
  generate_missed_homework_report df cfg
  = Raise (ValueError (missing_message missing)).
Proof.
  intros Habs. unfold generate_missed_homework_report.
  fold (identity_columns cfg). fold missing.
  destruct missing as [| x l] eqn:Hm; [ | reflexivity ].
  apply missing_nil_iff in Hm. congruence.
Qed.

(** Past the first guard the second decides, lines 51 to 55. *)
Lemma generate_present :
  identity_present df cfg = true ->
  generate_missed_homework_report df cfg
  = if Nat.eqb (List.length (score_columns_of df cfg)) 0
    then Raise (ValueError (no_assignment_message (scores_start_index cfg)))
    else scan_rows cfg (score_columns_of df cfg) (iterrows df) [].
Proof.
  intros Hall. unfold generate_missed_homework_report.
  fold (identity_columns cfg). fold missing.
  apply missing_nil_iff in Hall. rewrite Hall. reflexivity.
Qed.
End Validation.

Lemma slice_from_beyond {A} (l : list A) (i : Z) :
  Z.of_nat (List.length l) <= i -> Py.slice_from l i = [].
Proof.
  intros H. unfold Py.slice_from.
  destruct (i <? 0) eqn:Hneg; [ apply Z.ltb_lt in Hneg; lia | ].
  apply skipn_all2. lia.
Qed.

(** C3. When a configured identity column (first name, last name, group or
    e-mail) is not a column of the dataset, the extractor raises the
    missing-column error; its message lists, joined by commas and in sorted
    order, exactly the configured names that are absent, each once; and the
    rows play no part: the same error is raised whatever the rows are, so
    no record is produced. *)
Theorem missing_identity_columns_reported
  (order : SetOrder) (df : DataFrame) (cfg : Config) :
  identity_present df cfg = false ->
  exists names,
    generate_missed_homework_report df cfg
    = Raise (ValueError ("Missing required column(s): " ++ Py.join ", " names))
    /\ (forall c, In c names
                  <-> In c (identity_columns cfg) /\ ~ In c (columns df))
    /\ NoDup names
    /\ StronglySorted le_str names
    /\ (forall rows,
          generate_missed_homework_report
            {| columns := columns df; data := rows |} cfg
          = generate_missed_homework_report df cfg).
Proof.
  intros Habs.
  exists (Py.sorted (set_difference (mk_set (identity_columns cfg))
                                    (mk_set (columns df)))).
  split; [ now apply generate_missing | ].
  split.
  { intros c. rewrite <- missing_In. split; apply Permutation_in;
      [ apply sorted_perm | apply Permutation_sym, sorted_perm ]. }
  split.
  { eapply Permutation_NoDup;
      [ apply Permutation_sym, sorted_perm | apply missing_NoDup ]. }
  split; [ apply sorted_strongly | ].
  intros rows. rewrite (generate_missing df cfg Habs).
  exact (generate_missing {| columns := columns df; data := rows |} cfg Habs).
Qed.

Lemma missing_identity_columns_reported_witness :
  identity_present one_column_sheet default_config = false
  /\ exists names,
       @generate_missed_homework_report insertion_order
         one_column_sheet default_config
       = Raise (ValueError ("Missing required column(s): " ++ Py.join ", " names))
       /\ (forall c, In c names
                     <-> In c (identity_columns default_config)
                         /\ ~ In c (columns one_column_sheet))
       /\ NoDup names
       /\ StronglySorted le_str names
       /\ (forall rows,
             @generate_missed_homework_report insertion_order
               {| columns := columns one_column_sheet; data := rows |}
               default_config
             = @generate_missed_homework_report insertion_order
                 one_column_sheet default_config).
Proof.
  split; [ reflexivity | ].
  apply (missing_identity_columns_reported insertion_order
           one_column_sheet default_config).
  reflexivity.
Defined.

(** C4, as the code has it.  The missing-column guard runs first, so the
    no-assignment error is what the extractor raises when all four identity
    columns are present and no column lies at or after the start index (as
    when the start index equals the column count); no record is produced. *)
Theorem no_assignment_columns_error
  (order : SetOrder) (df : DataFrame) (cfg : Config) :
  identity_present df cfg = true ->
  score_columns_of df cfg = [] ->
  generate_missed_homework_report df cfg
  = Raise (ValueError (no_assignment_message (scores_start_index cfg))).
Proof.
  intros Hall Hnone. rewrite (generate_present df cfg Hall).
  now rewrite Hnone.
Qed.

Lemma no_assignment_columns_error_witness :
  identity_present identity_only_sheet default_config = true
  /\ score_columns_of identity_only_sheet default_config = []
  /\ @generate_missed_homework_report insertion_order
       identity_only_sheet default_config
     = Raise (ValueError
                (no_assignment_message (scores_start_index default_config))).
Proof.
  split; [ reflexivity | ].
  split; [ reflexivity | ].
  apply (no_assignment_columns_error insertion_order
           identity_only_sheet default_config); reflexivity.
Defined.

(** C4 as stated fails: with three columns and start index four no column
    is left for assignments, yet the error raised is the missing-column
    one, for the absent e-mail column. *)
Lemma no_scores_but_missing_email :
  score_columns_of no_email_sheet default_config = []
  /\ @generate_missed_homework_report insertion_order
       no_email_sheet default_config
     = Raise (ValueError "Missing required column(s): Email")
  /\ @generate_missed_homework_report insertion_order
       no_email_sheet default_config
     <> Raise (ValueError
                 (no_assignment_message (scores_start_index default_config))).
Proof.
  split; [ reflexivity | ].
  split; [ reflexivity | ].
  vm_compute. discriminate.
Qed.

(** C10, as the code has it.  For a start index that is non-negative and
    at least the column count, also beyond it, the slice of score columns
    is empty rather than an error, and, all four identity columns being
    present, the extractor raises the no-assignment error. *)
Theorem start_index_beyond_columns
  (order : SetOrder) (df : DataFrame) (cfg : Config) :
  identity_present df cfg = true ->
  0 <= scores_start_index cfg ->
  Z.of_nat (List.length (columns df)) <= scores_start_index cfg ->
  Py.slice_from (columns df) (scores_start_index cfg) = []
  /\ generate_missed_homework_report df cfg
     = Raise (ValueError (no_assignment_message (scores_start_index cfg))).
Proof.
  intros Hall _ Hbeyond.
  assert (Hnone : score_columns_of df cfg = [])
    by (apply slice_from_beyond; exact Hbeyond).
  split; [ exact Hnone | ].
  rewrite (generate_present df cfg Hall). now rewrite Hnone.
Qed.

Lemma start_index_beyond_columns_witness :
  identity_present gradebook far_config = true
  /\ 0 <= scores_start_index far_config
  /\ Z.of_nat (List.length (columns gradebook)) <= scores_start_index far_config
  /\ Py.slice_from (columns gradebook) (scores_start_index far_config) = []
  /\ @generate_missed_homework_report insertion_order gradebook far_config
     = Raise (ValueError
                (no_assignment_message (scores_start_index far_config))).
Proof.
  split; [ reflexivity | ].
  split; [ simpl; lia | ].
  split; [ simpl; lia | ].
  apply (start_index_beyond_columns insertion_order gradebook far_config);
    [ reflexivity | simpl; lia | simpl; lia ].
Defined.

(** C10 as stated fails: on a one-column sheet a start index of four is
    beyond the column count, and the error raised is the missing-column
    one, not the no-assignment one. *)
Lemma beyond_columns_but_missing_identity :
  0 <= scores_start_index default_config
  /\ Z.of_nat (List.length (columns one_column_sheet))
     < scores_start_index default_config
  /\ @generate_missed_homework_report insertion_order
       one_column_sheet default_config
     = Raise (ValueError
                "Missing required column(s): Email, First Name, Group, Last Name")
  /\ @generate_missed_homework_report insertion_order
       one_column_sheet default_config
     <> Raise (ValueError
                 (no_assignment_message (scores_start_index default_config))).
Proof.
  split; [ simpl; lia | ].
  split; [ simpl; lia | ].
  split; [ reflexivity | ].
  vm_compute. discriminate.
Qed.

(** The two sample orders enumerate the missing names differently, and the
    error raised is the same. *)
Example orders_differ_message_agrees :
  @set_difference insertion_order
    (@mk_set insertion_order (identity_columns default_config))
    (@mk_set insertion_order (columns one_column_sheet))
  = ["First Name"; "Last Name"; "Group"; "Email"]
  /\ @set_difference rotated_order
       (@mk_set rotated_order (identity_columns default_config))
       (@mk_set rotated_order (columns one_column_sheet))
     = ["Group"; "Email"; "First Name"; "Last Name"]
  /\ @generate_missed_homework_report rotated_order
       one_column_sheet default_config
     = Raise (ValueError
                "Missing required column(s): Email, First Name, Group, Last Name").
Proof. split; [ reflexivity | split; reflexivity ]. Qed.

(** C9. The extractor's result is a function of the dataset and the
    configuration alone.  The one thing the code consults besides them is
    the iteration order of the set of missing names, which the
    interpreter's string hashing fixes anew in every process; the message
    sorts the names, so two calls on the same dataset and configuration
    agree whatever the two orders are.  The dataset itself is only read. *)
Theorem extractor_is_deterministic
  (order1 order2 : SetOrder) (df : DataFrame) (cfg : Config) :
  @generate_missed_homework_report order1 df cfg
  = @generate_missed_homework_report order2 df cfg.
Proof.
  destruct (identity_present df cfg) eqn:Hid.
  - rewrite (@generate_present order1 df cfg Hid).
    rewrite (@generate_present order2 df cfg Hid). reflexivity.
  - rewrite (@generate_missing order1 df cfg Hid).
    rewrite (@generate_missing order2 df cfg Hid).
    unfold missing_message. do 4 f_equal.
    apply sorted_of_perm.
    apply NoDup_Permutation; try apply missing_NoDup.
    intros x. rewrite (@missing_In order1), (@missing_In order2). reflexivity.
Qed.

(** ** Row processing *)

Lemma getitem_combine (cols : list string) :
  forall (r : list scalar) (c : string),
    In c cols -> List.length r = List.length cols ->
    exists v, getitem (combine cols r) c = Ok v.
Proof.
  induction cols as [| k cols IH]; intros r c Hin Hlen; [ destruct Hin | ].
  destruct r as [| v r]; [ discriminate | ]. simpl.
  destruct (String.eqb k c) eqn:Hk; [ now exists v | ].
  destruct Hin as [-> | Hin]; [ rewrite String.eqb_refl in Hk; discriminate | ].
  apply IH; [ exact Hin | ]. simpl in Hlen. congruence.
Qed.

Lemma iterrows_have_columns (df : DataFrame) :
  well_formed df = true -> Forall (has_columns (columns df)) (iterrows df).
Proof.
  unfold well_formed, iterrows. intros Hwf.
  apply andb_true_iff in Hwf. destruct Hwf as [_ Hlen].
  rewrite forallb_forall in Hlen.
  apply Forall_forall. intros row Hrow.
  apply in_map_iff in Hrow. destruct Hrow as [r [<- Hr]].
  intros c Hc. apply getitem_combine; [ exact Hc | ].
  apply Nat.eqb_eq. now apply Hlen.
Qed.

Lemma has_columns_incl (cols cols' : list string) (row : Series) :
  incl cols' cols -> has_columns cols row -> has_columns cols' row.
Proof. intros Hincl H c Hc. apply H, Hincl, Hc. Qed.

Lemma slice_from_incl {A} (l : list A) (i : Z) : incl (Py.slice_from l i) l.
Proof.
  unfold Py.slice_from. intros x Hx.
  rewrite <- (firstn_skipn
                (Z.to_nat (if i <? 0 then Z.max 0 (Z.of_nat (List.length l) + i)
                           else Z.min i (Z.of_nat (List.length l)))) l).
  apply in_or_app. now right.
Qed.

Lemma getitem_cell (row : Series) (c : string) (v : scalar) :
  getitem row c = Ok v -> cell row c = v.
Proof. unfold cell. now intros ->. Qed.

(** The inner loop computes the filter of the score columns. *)
Lemma scan_scores_spec (row : Series) (score_columns : list string) :
  has_columns score_columns row ->
  forall acc,
    scan_scores row score_columns acc
    = Ok (acc ++ missed_of score_columns row)%list.
Proof.
  induction score_columns as [| col rest IH]; intros Hhas acc; simpl.
  - now rewrite app_nil_r.
  - destruct (Hhas col (or_introl eq_refl)) as [v Hv].
    rewrite Hv. simpl. unfold missed_of. simpl.
    rewrite (getitem_cell _ _ _ Hv). unfold is_miss.
    assert (Hrest : has_columns rest row)
      by (intros c Hc; apply Hhas; now right).
    destruct (notna v && eq_zero v).
    + rewrite (IH Hrest). unfold missed_of.
      now rewrite <- app_assoc.
    + apply (IH Hrest).
Qed.

(** The loop over the rows computes the map of the filter of the rows. *)
Lemma scan_rows_spec (cfg : Config) (score_columns : list string)
  (rows : list Series) :
  Forall (has_columns (identity_columns cfg)) rows ->
  Forall (has_columns score_columns) rows ->
  forall acc,
    scan_rows cfg score_columns rows acc
    = Ok (acc ++ map (record_of cfg score_columns)
                     (filter (has_miss score_columns) rows))%list.
Proof.
  induction rows as [| row rest IH]; intros Hid Hsc acc.
  - simpl. now rewrite app_nil_r.
  - inversion Hid as [| ? ? Hid1 Hid']; subst.
    inversion Hsc as [| ? ? Hsc1 Hsc']; subst.
    destruct (Hid1 (first_name_col cfg)) as [fv Hf]; [ simpl; tauto | ].
    destruct (Hid1 (last_name_col cfg)) as [lv Hl]; [ simpl; tauto | ].
    destruct (Hid1 (group_col cfg)) as [gv Hg]; [ simpl; tauto | ].
    destruct (Hid1 (email_col cfg)) as [ev He]; [ simpl; tauto | ].
    cbn [scan_rows]. rewrite Hf, Hl, Hg, He. cbn [bind].
    rewrite (scan_scores_spec row score_columns Hsc1). cbn [bind app].
    cbn [filter]. unfold has_miss at 1.
    destruct (missed_of score_columns row) as [| m ms] eqn:Hm.
    + apply (IH Hid' Hsc').
    + rewrite (IH Hid' Hsc'). cbn [map]. rewrite <- app_assoc. cbn [app].
      do 3 f_equal. unfold record_of, token.
      rewrite (getitem_cell _ _ _ Hf), (getitem_cell _ _ _ Hl),
        (getitem_cell _ _ _ Hg), (getitem_cell _ _ _ He), Hm.
      reflexivity.
Qed.

(** On a valid input the extractor returns the records of the rows that
    have a miss. *)
Lemma generate_valid (order : SetOrder) (df : DataFrame) (cfg : Config) :
  valid_input df cfg = true ->
  generate_missed_homework_report df cfg
  = Ok (map (record_of cfg (score_columns_of df cfg))
            (filter (has_miss (score_columns_of df cfg)) (iterrows df))).
Proof.
  unfold valid_input. intros Hv.
  apply andb_true_iff in Hv. destruct Hv as [Hv Hsome].
  apply andb_true_iff in Hv. destruct Hv as [Hwf Hid].
  rewrite (generate_present df cfg Hid).
  apply negb_true_iff in Hsome. rewrite Hsome.
  pose proof (iterrows_have_columns df Hwf) as Hrows.
  rewrite scan_rows_spec; [ reflexivity | | ].
  - eapply Forall_impl; [ | exact Hrows ].
    intros row. apply has_columns_incl.
    intros c Hc. now apply (identity_present_iff df cfg).
  - eapply Forall_impl; [ | exact Hrows ].
    intros row. apply has_columns_incl, slice_from_incl.
Qed.

(** ** The miss criterion *)

Lemma q2_not_zero (m : positive) (e : Z) : ~ Qeq (FloatRepr.q2 (Zpos m) e) 0.
Proof.
  unfold FloatRepr.q2. destruct (0 <=? e) eqn:He.
  - apply Z.leb_le in He.
    pose proof (Z.pow_pos_nonneg 2 e ltac:(lia) He) as Hpow.
    unfold Qeq, inject_Z. cbn [Qnum Qden].
    intros H. rewrite Z.mul_1_r, Z.mul_0_l in H.
    apply Z.mul_eq_0 in H. destruct H as [H | H]; [ discriminate | lia ].
  - unfold Qeq. cbn [Qnum Qden]. intros H.
    rewrite Z.mul_1_r, Z.mul_0_l in H. discriminate.
Qed.

Lemma eq_zero_iff (v : scalar) : eq_zero v = true <-> numerically_zero v.
Proof.
  unfold numerically_zero.
  destruct v as [z | f | s]; simpl.
  - rewrite Z.eqb_eq. split.
    + intros ->. exists (inject_Z 0). split; reflexivity.
    + intros [q [Hq H0]]. injection Hq as <-.
      unfold Qeq in H0. simpl in H0. lia.
  - destruct f as [sg | sg | | sg m e]; simpl.
    + split; [ intros _; exists 0%Q; split; reflexivity | reflexivity ].
    + split; [ destruct sg; discriminate | intros [q [Hq _]]; discriminate ].
    + split; [ discriminate | intros [q [Hq _]]; discriminate ].
    + split; [ destruct sg; discriminate | ].
      intros [q [Hq H0]]. injection Hq as <-. exfalso.
      destruct sg.
      * apply (q2_not_zero m e).
        rewrite <- (Qopp_involutive (FloatRepr.q2 (Z.pos m) e)), H0.
        reflexivity.
      * now apply (q2_not_zero m e).
  - split; [ discriminate | intros [q [Hq _]]; discriminate ].
Qed.

Lemma notna_iff (v : scalar) : notna v = true <-> present v.
Proof.
  unfold present. destruct v as [z | f | s]; simpl;
    try (split; [ discriminate | reflexivity ]).
  destruct f; simpl; split; try discriminate; try reflexivity.
  intros H. now contradiction H.
Qed.

Lemma is_miss_iff (v : scalar) :
  is_miss v = true <-> present v /\ numerically_zero v.
Proof.
  unfold is_miss. now rewrite andb_true_iff, notna_iff, eq_zero_iff.
Qed.

Lemma missed_of_In (score_columns : list string) (row : Series) (c : string) :
  In c (missed_of score_columns row)
  <-> In c score_columns
      /\ present (cell row c) /\ numerically_zero (cell row c).
Proof. unfold missed_of. now rewrite filter_In, is_miss_iff. Qed.

(** C1. In a well-formed dataset, for every row and every column at or
    after the start index, the scan of the row returns its missed list,
    the one its record carries, and the column is in that list if and only
    if the row's value there is present (not NaN) and numerically zero.
    A missing value, a number other than zero and a text are therefore not
    misses, and the verdict on a column depends on that column's value
    alone, not on its neighbours. *)
Theorem miss_iff_present_and_zero
  (df : DataFrame) (cfg : Config) (row : Series) (col : string) :
  well_formed df = true ->
  In row (iterrows df) ->
  In col (score_columns_of df cfg) ->
  exists ms v,
    scan_scores row (score_columns_of df cfg) [] = Ok ms
    /\ missed (record_of cfg (score_columns_of df cfg) row) = ms
    /\ getitem row col = Ok v
    /\ (In col ms <-> present v /\ numerically_zero v)
    /\ (v = SFloat S754_nan -> ~ In col ms)
    /\ (forall s, v = SStr s -> ~ In col ms)
    /\ (forall q, numeric_value v = Some q -> ~ Qeq q 0 -> ~ In col ms).
Proof.
  intros Hwf Hrow Hcol.
  pose proof (iterrows_have_columns df Hwf) as Hrows.
  rewrite Forall_forall in Hrows. specialize (Hrows row Hrow).
  assert (Hsc : has_columns (score_columns_of df cfg) row)
    by (eapply has_columns_incl; [ apply slice_from_incl | exact Hrows ]).
  destruct (Hsc col Hcol) as [v Hv].
  exists (missed_of (score_columns_of df cfg) row), v.
  assert (Hiff : In col (missed_of (score_columns_of df cfg) row)
                 <-> present v /\ numerically_zero v).
  { rewrite missed_of_In, (getitem_cell _ _ _ Hv). tauto. }
  split; [ now rewrite (scan_scores_spec row _ Hsc) | ].
  split; [ reflexivity | ].
  split; [ exact Hv | ].
  split; [ exact Hiff | ].
  split; [ | split ].
  - intros -> Hin. apply Hiff in Hin. destruct Hin as [Hp _]. now apply Hp.
  - intros s -> Hin. apply Hiff in Hin.
    destruct Hin as [_ [q [Hq _]]]. discriminate.
  - intros q Hq Hnz Hin. apply Hiff in Hin.
    destruct Hin as [_ [q' [Hq' H0]]]. rewrite Hq in Hq'.
    injection Hq' as <-. now apply Hnz.
Qed.

Lemma miss_iff_present_and_zero_witness :
  well_formed gradebook = true
  /\ In cy_row (iterrows gradebook)
  /\ In "HW2" (score_columns_of gradebook default_config)
  /\ exists ms v,
       scan_scores cy_row (score_columns_of gradebook default_config) [] = Ok ms
       /\ missed (record_of default_config
                    (score_columns_of gradebook default_config) cy_row) = ms
       /\ getitem cy_row "HW2" = Ok v
       /\ (In "HW2" ms <-> present v /\ numerically_zero v)
       /\ (v = SFloat S754_nan -> ~ In "HW2" ms)
       /\ (forall s, v = SStr s -> ~ In "HW2" ms)
       /\ (forall q, numeric_value v = Some q -> ~ Qeq q 0 -> ~ In "HW2" ms).
Proof.
  assert (H1 : well_formed gradebook = true) by reflexivity.
  assert (H2 : In cy_row (iterrows gradebook))
    by (right; right; left; reflexivity).
  assert (H3 : In "HW2" (score_columns_of gradebook default_config))
    by (right; left; reflexivity).
  split; [ exact H1 | ].
  split; [ exact H2 | ].
  split; [ exact H3 | ].
  exact (miss_iff_present_and_zero gradebook default_config cy_row "HW2"
           H1 H2 H3).
Defined.

(** A blank and a zero side by side: only the zero is a miss. *)
Example blank_next_to_zero :
  getitem cy_row "HW1" = Ok NaN
  /\ getitem cy_row "HW2" = Ok (SFloat (S754_zero false))
  /\ scan_scores cy_row (score_columns_of gradebook default_config) []
     = Ok ["HW2"].
Proof. repeat split. Qed.

Lemma filter_none {A} (f : A -> bool) (l : list A) :
  (forall x, In x l -> f x = false) -> filter f l = [].
Proof.
  induction l as [| x l IH]; intros H; simpl; [ reflexivity | ].
  rewrite (H x (or_introl eq_refl)). apply IH.
  intros y Hy. apply H. now right.
Qed.

(** C2. On a dataset and configuration that pass validation, the extractor
    returns the records of exactly the rows that have a miss, one record per
    such row and in the order of the rows; the [missed] list of a record is
    the score columns, in column order, whose value in the row is a miss, so
    it is never empty; and when no row holds a numerically zero value in a
    score column the result is the empty list. *)
Theorem extractor_output
  (order : SetOrder) (df : DataFrame) (cfg : Config) :
  valid_input df cfg = true ->
  generate_missed_homework_report df cfg
  = Ok (map (record_of cfg (score_columns_of df cfg))
            (filter (has_miss (score_columns_of df cfg)) (iterrows df)))
  /\ (forall row, has_miss (score_columns_of df cfg) row = true
                  <-> missed (record_of cfg (score_columns_of df cfg) row) <> [])
  /\ (forall row, missed (record_of cfg (score_columns_of df cfg) row)
                  = filter (fun c => is_miss (cell row c))
                           (score_columns_of df cfg))
  /\ (exists k, score_columns_of df cfg = skipn k (columns df))
  /\ ((forall row c, In row (iterrows df) -> In c (score_columns_of df cfg) ->
                     ~ numerically_zero (cell row c)) ->
      generate_missed_homework_report df cfg = Ok []).
Proof.
  intros Hvalid.
  pose proof (generate_valid order df cfg Hvalid) as Hgen.
  split; [ exact Hgen | ].
  split.
  { intros row. unfold has_miss, record_of. cbn [missed].
    destruct (missed_of (score_columns_of df cfg) row);
      split; congruence. }
  split; [ reflexivity | ].
  split; [ eexists; reflexivity | ].
  intros Hnone. rewrite Hgen.
  replace (filter (has_miss (score_columns_of df cfg)) (iterrows df))
    with (@nil Series); [ reflexivity | ].
  symmetry. apply filter_none. intros row Hrow.
  unfold has_miss.
  destruct (missed_of (score_columns_of df cfg) row) as [| c l] eqn:Hm;
    [ reflexivity | ].
  exfalso.
  assert (Hin : In c (missed_of (score_columns_of df cfg) row))
    by (rewrite Hm; now left).
  apply missed_of_In in Hin. destruct Hin as [Hc [_ Hz]].
  exact (Hnone row c Hrow Hc Hz).
Qed.

Lemma extractor_output_witness :
  valid_input gradebook default_config = true
  /\ @generate_missed_homework_report insertion_order gradebook default_config
     = Ok (map (record_of default_config
                  (score_columns_of gradebook default_config))
               (filter (has_miss (score_columns_of gradebook default_config))
                       (iterrows gradebook)))
  /\ (forall row,
        has_miss (score_columns_of gradebook default_config) row = true
        <-> missed (record_of default_config
                      (score_columns_of gradebook default_config) row) <> [])
  /\ (forall row,
        missed (record_of default_config
                  (score_columns_of gradebook default_config) row)
        = filter (fun c => is_miss (cell row c))
                 (score_columns_of gradebook default_config))
  /\ (exists k, score_columns_of gradebook default_config
                = skipn k (columns gradebook))
  /\ ((forall row c, In row (iterrows gradebook) ->
                     In c (score_columns_of gradebook default_config) ->
                     ~ numerically_zero (cell row c)) ->
      @generate_missed_homework_report insertion_order gradebook default_config
      = Ok []).
Proof.
  split; [ reflexivity | ].
  apply (extractor_output insertion_order gradebook default_config).
  reflexivity.
Defined.

(** Rows with two misses, none and one, in that order, give the records of
    the first and the third. *)
Example gradebook_report :
  @generate_missed_homework_report insertion_order gradebook default_config
  = Ok [ {| name := "Ann Lee"; group := SInt 1; email := "a@e.edu";
            missed := ["HW1"; "HW3"] |};
         {| name := "Cy Day"; group := SInt 1; email := "c@e.edu";
            missed := ["HW2"] |} ].
Proof. reflexivity. Qed.

(** ** Trimming *)

Lemma lstrip_blank (s : string) : blank s = true -> Py.lstrip s = EmptyString.
Proof.
  induction s as [| c s IH]; simpl; [ reflexivity | ].
  intros H. apply andb_true_iff in H. destruct H as [Hc Hs].
  rewrite Hc. now apply IH.
Qed.

Lemma strip_blank (s : string) : blank s = true -> Py.strip s = EmptyString.
Proof. intros H. unfold Py.strip. now rewrite lstrip_blank. Qed.

Lemma lstrip_starts_clean (s : string) : starts_clean (Py.lstrip s).
Proof.
  induction s as [| c s IH]; simpl; [ exact I | ].
  destruct (Py.isspace c) eqn:Hc; [ exact IH | exact Hc ].
Qed.

Lemma lstrip_clean (s : string) : starts_clean s -> Py.lstrip s = s.
Proof. destruct s as [| c s]; simpl; [ reflexivity | now intros -> ]. Qed.

Lemma rstrip_starts_clean (s : string) :
  starts_clean s -> starts_clean (Py.rstrip s).
Proof.
  destruct s as [| c s]; simpl; [ trivial | ].
  intros Hc. rewrite Hc. destruct (Py.rstrip s); exact Hc.
Qed.

Lemma rstrip_cons (c : ascii) (s : string) :
  Py.rstrip (String c s)
  = match Py.rstrip s with
    | EmptyString =>
        if Py.isspace c then EmptyString else String c EmptyString
    | r => String c r
    end.
Proof. reflexivity. Qed.

Lemma rstrip_idempotent (s : string) : Py.rstrip (Py.rstrip s) = Py.rstrip s.
Proof.
  induction s as [| c s IH]; [ reflexivity | ].
  rewrite rstrip_cons.
  destruct (Py.rstrip s) as [| d r] eqn:Hr.
  - destruct (Py.isspace c) eqn:Hc; [ reflexivity | ].
    rewrite rstrip_cons. cbn [Py.rstrip]. now rewrite Hc.
  - rewrite rstrip_cons, IH. reflexivity.
Qed.

Lemma strip_starts_clean (s : string) : starts_clean (Py.strip s).
Proof. apply rstrip_starts_clean, lstrip_starts_clean. Qed.

Lemma rstrip_strip (s : string) : Py.rstrip (Py.strip s) = Py.strip s.
Proof. apply rstrip_idempotent. Qed.

Lemma strip_idempotent (s : string) : Py.strip (Py.strip s) = Py.strip s.
Proof.
  unfold Py.strip at 1.
  rewrite (lstrip_clean _ (strip_starts_clean s)). apply rstrip_strip.
Qed.

Lemma rstrip_trailing_space (s : string) :
  Py.rstrip (s ++ " ") = Py.rstrip s.
Proof.
  induction s as [| c s IH]; [ reflexivity | ].
  cbn [append]. now rewrite !rstrip_cons, IH.
Qed.

(** An empty first token leaves the trimmed last token, and conversely. *)
Lemma name_without_first (s : string) :
  Py.strip (EmptyString ++ " " ++ Py.strip s) = Py.strip s.
Proof.
  change (EmptyString ++ " " ++ Py.strip s) with (String " " (Py.strip s)).
  unfold Py.strip at 1. change (Py.lstrip (String " " (Py.strip s)))
    with (Py.lstrip (Py.strip s)).
  apply strip_idempotent.
Qed.

Lemma name_without_last (s : string) :
  Py.strip (Py.strip s ++ " " ++ EmptyString) = Py.strip s.
Proof.
  change (" " ++ EmptyString) with " ".
  unfold Py.strip at 1.
  pose proof (strip_starts_clean s) as Hclean.
  destruct (Py.strip s) as [| c t] eqn:Ht; [ reflexivity | ].
  rewrite lstrip_clean by exact Hclean.
  rewrite rstrip_trailing_space, <- Ht. apply rstrip_strip.
Qed.

(** C5, as the code has it.  The name of a record is the trimmed string
    form of the row's first-name value, one space, and the trimmed string
    form of its last-name value, the whole trimmed again.  A blank text
    (empty or whitespace only) gives the empty token, and an empty token
    leaves the other token alone as the name, so two blank texts give the
    empty name.  A missing value is not given the empty token: its string
    form is the text nan. *)
Theorem name_of_each_record
  (order : SetOrder) (df : DataFrame) (cfg : Config) :
  valid_input df cfg = true ->
  exists recs,
    generate_missed_homework_report df cfg = Ok recs
    /\ (forall r, In r recs ->
          exists row,
            In row (iterrows df)
            /\ name r
               = Py.strip (Py.strip (str (cell row (first_name_col cfg)))
                           ++ " "
                           ++ Py.strip (str (cell row (last_name_col cfg)))))
    /\ (forall row, In row (iterrows df) ->
          has_miss (score_columns_of df cfg) row = true ->
          exists r,
            In r recs
            /\ name r
               = Py.strip (Py.strip (str (cell row (first_name_col cfg)))
                           ++ " "
                           ++ Py.strip (str (cell row (last_name_col cfg)))))
    /\ (forall s, blank s = true -> Py.strip (str (SStr s)) = EmptyString)
    /\ (forall f l, Py.strip (str f) = EmptyString ->
          Py.strip (Py.strip (str f) ++ " " ++ Py.strip (str l))
          = Py.strip (str l))
    /\ (forall f l, Py.strip (str l) = EmptyString ->
          Py.strip (Py.strip (str f) ++ " " ++ Py.strip (str l))
          = Py.strip (str f))
    /\ (forall f l, blank f = true -> blank l = true ->
          Py.strip (Py.strip (str (SStr f)) ++ " " ++ Py.strip (str (SStr l)))
          = EmptyString)
    /\ Py.strip (str (SFloat S754_nan)) = "nan".
Proof.
  intros Hvalid. eexists.
  split; [ exact (generate_valid order df cfg Hvalid) | ].
  split.
  { intros r Hr. apply in_map_iff in Hr. destruct Hr as [row [<- Hrow]].
    apply filter_In in Hrow. destruct Hrow as [Hrow _].
    exists row. split; [ exact Hrow | reflexivity ]. }
  split.
  { intros row Hrow Hmiss.
    exists (record_of cfg (score_columns_of df cfg) row).
    split; [ | reflexivity ].
    apply in_map, filter_In. now split. }
  split; [ intros s Hs; now apply strip_blank | ].
  split; [ intros f l ->; apply name_without_first | ].
  split; [ intros f l ->; apply name_without_last | ].
  split; [ | reflexivity ].
  intros f l Hf Hl. cbn [str].
  now rewrite (strip_blank f Hf), (strip_blank l Hl).
Qed.

Lemma name_of_each_record_witness :
  valid_input blank_name_sheet default_config = true
  /\ exists recs,
       @generate_missed_homework_report insertion_order
         blank_name_sheet default_config = Ok recs
       /\ (forall r, In r recs ->
             exists row,
               In row (iterrows blank_name_sheet)
               /\ name r
                  = Py.strip
                      (Py.strip (str (cell row (first_name_col default_config)))
                       ++ " "
                       ++ Py.strip (str (cell row (last_name_col default_config)))))
       /\ (forall row, In row (iterrows blank_name_sheet) ->
             has_miss (score_columns_of blank_name_sheet default_config) row
             = true ->
             exists r,
               In r recs
               /\ name r
                  = Py.strip
                      (Py.strip (str (cell row (first_name_col default_config)))
                       ++ " "
                       ++ Py.strip (str (cell row (last_name_col default_config)))))
       /\ (forall s, blank s = true -> Py.strip (str (SStr s)) = EmptyString)
       /\ (forall f l, Py.strip (str f) = EmptyString ->
             Py.strip (Py.strip (str f) ++ " " ++ Py.strip (str l))
             = Py.strip (str l))
       /\ (forall f l, Py.strip (str l) = EmptyString ->
             Py.strip (Py.strip (str f) ++ " " ++ Py.strip (str l))
             = Py.strip (str f))
       /\ (forall f l, blank f = true -> blank l = true ->
             Py.strip (Py.strip (str (SStr f)) ++ " " ++ Py.strip (str (SStr l)))
             = EmptyString)
       /\ Py.strip (str (SFloat S754_nan)) = "nan".
Proof.
  split; [ reflexivity | ].
  apply (name_of_each_record insertion_order blank_name_sheet default_config).
  reflexivity.
Defined.

(** C5 as stated fails: a row whose two name cells are missing gets the
    name [nan nan], where the claim has the empty name. *)
Lemma absent_names_give_nan :
  exists r row,
    @generate_missed_homework_report insertion_order
      unnamed_sheet default_config = Ok [r]
    /\ iterrows unnamed_sheet = [row]
    /\ cell row (first_name_col default_config) = SFloat S754_nan
    /\ cell row (last_name_col default_config) = SFloat S754_nan
    /\ name r = "nan nan"
    /\ claimed_name (cell row (first_name_col default_config))
                    (cell row (last_name_col default_config)) = EmptyString
    /\ name r <> claimed_name (cell row (first_name_col default_config))
                              (cell row (last_name_col default_config)).
Proof.
  eexists. eexists.
  split; [ reflexivity | ].
  split; [ reflexivity | ].
  split; [ reflexivity | ].
  split; [ reflexivity | ].
  split; [ reflexivity | ].
  split; [ reflexivity | ].
  vm_compute. discriminate.
Qed.

(** Blank texts in both name cells give the empty name. *)
Example blank_names_report :
  @generate_missed_homework_report insertion_order
    blank_name_sheet default_config
  = Ok [ {| name := EmptyString; group := SInt 1; email := "a@e.edu";
            missed := ["HW1"] |} ].
Proof. reflexivity. Qed.

(** ** The mail-merge projector *)

Lemma split_from_some (s : string) :
  forall w, Py.split_from (Some w) s <> [].
Proof.
  induction s as [| c s IH]; intros w; simpl; [ discriminate | ].
  destruct (Py.isspace c); [ discriminate | apply IH ].
Qed.

(** [split] returns no token exactly on a blank text. *)
Lemma split_nil_iff (s : string) : Py.split s = [] <-> blank s = true.
Proof.
  unfold Py.split. induction s as [| c s IH]; simpl; [ tauto | ].
  destruct (Py.isspace c); simpl; [ exact IH | ].
  split; [ | discriminate ].
  intros H. now apply split_from_some in H.
Qed.

(** The loop either appends one row per record, in order, or stops at the
    first record whose name is blank. *)
Lemma mail_merge_loop_ok (records : list StudentRecord) :
  Forall (fun r => blank (name r) = false) records ->
  forall rows,
    mail_merge_loop records rows = Ok (rows ++ map mail_row_of records)%list.
Proof.
  induction 1 as [| r rest Hr Hrest IH]; intros rows; simpl.
  - now rewrite app_nil_r.
  - unfold mail_row_of at 1.
    destruct (Py.split (name r)) as [| tok toks] eqn:Hs.
    + apply split_nil_iff in Hs. congruence.
    + simpl. rewrite IH, <- app_assoc. reflexivity.
Qed.

Lemma mail_merge_loop_raises (records : list StudentRecord) :
  Exists (fun r => blank (name r) = true) records ->
  forall rows, mail_merge_loop records rows = Raise IndexError.
Proof.
  induction records as [| r rest IH]; intros Hex rows;
    [ inversion Hex | ].
  simpl. destruct (Py.split (name r)) as [| tok toks] eqn:Hs;
    [ reflexivity | ].
  simpl. apply IH.
  inversion Hex as [? ? Hb | ? ? Hrest]; subst; [ | exact Hrest ].
  apply split_nil_iff in Hb. congruence.
Qed.

Lemma mail_merge_loop_inv (records : list StudentRecord) :
  forall rows out,
    mail_merge_loop records rows = Ok out ->
    out = (rows ++ map mail_row_of records)%list.
Proof.
  induction records as [| r rest IH]; intros rows out; simpl.
  - intros H. injection H as <-. now rewrite app_nil_r.
  - unfold mail_row_of at 1.
    destruct (Py.split (name r)) as [| tok toks]; simpl; [ discriminate | ].
    intros H. apply IH in H. rewrite H, <- app_assoc. reflexivity.
Qed.

(** C6, where the code departs from the claim.  The sheet whose student
    has blank texts for both names passes validation and yields one
    record, with the empty name; on that record the projector indexes the
    empty token list and raises, so no row comes out where the claim
    promises one per record. *)
Theorem blank_name_breaks_mail_merge :
  valid_input blank_name_sheet default_config = true
  /\ @generate_missed_homework_report insertion_order
       blank_name_sheet default_config = Ok [blank_name_record]
  /\ Py.split (name blank_name_record) = []
  /\ build_mail_merge_dataframe [blank_name_record] = Raise IndexError.
Proof.
  split; [ reflexivity | ].
  split; [ reflexivity | ].
  split; [ reflexivity | ].
  unfold build_mail_merge_dataframe.
  apply mail_merge_loop_raises. constructor. reflexivity.
Qed.

(** On records whose names are not blank the projector does what the
    claim says: one row per record, in order, none dropped. *)
Lemma mail_merge_rows_of_named (records : list StudentRecord) :
  Forall (fun r => blank (name r) = false) records ->
  build_mail_merge_dataframe records = Ok (map mail_row_of records).
Proof. intros H. apply (mail_merge_loop_ok records H []). Qed.

(** ** The document *)

Lemma add_bullets_spec (assignments : list string) :
  forall doc,
    add_bullets doc assignments
    = (doc ++ map (fun a => Paragraph (" " ++ a) (Some "ListBullet"))
                  assignments)%list.
Proof.
  induction assignments as [| a rest IH]; intros doc; simpl.
  - now rewrite app_nil_r.
  - rewrite IH. unfold add_paragraph. now rewrite <- app_assoc.
Qed.

Lemma add_students_spec (records : list StudentRecord) :
  forall doc,
    add_students doc records = (doc ++ flat_map student_blocks records)%list.
Proof.
  induction records as [| r rest IH]; intros doc; simpl.
  - now rewrite app_nil_r.
  - rewrite IH, add_bullets_spec. unfold add_heading, student_blocks.
    rewrite <- !app_assoc. reflexivity.
Qed.

(** C7. For every title and record list the document starts with the
    title as its level-0 heading.  With no records it continues with the
    one informational paragraph and nothing else, so it has no student
    heading.  Otherwise it continues, record by record in input order,
    with the level-1 heading made of name, group and e-mail separated by
    a comma and a space, followed by one bullet paragraph per missed
    entry, in order, each the entry preceded by one space. *)
Theorem document_structure (records : list StudentRecord) (title : string) :
  build_word_report_bytes records title
  = Heading title 0
    :: match records with
       | [] => [Paragraph "No students with missed homework were found." None]
       | _ :: _ =>
           flat_map
             (fun r =>
                Heading (name r ++ ", " ++ str (group r) ++ ", " ++ email r) 1
                :: map (fun a => Paragraph (" " ++ a) (Some "ListBullet"))
                       (missed r))
             records
       end.
Proof.
  unfold build_word_report_bytes.
  destruct records as [| r rest]; [ reflexivity | ].
  rewrite add_students_spec. reflexivity.
Qed.

(** The end-to-end example of the specification. *)
Example ann_lee_document :
  build_word_report_bytes
    [{| name := "Ann Lee"; group := SInt 1; email := "a@e.edu";
        missed := ["HW1"] |}] "Missed Homework Report"
  = [ Heading "Missed Homework Report" 0;
      Heading "Ann Lee, 1, a@e.edu" 1;
      Paragraph " HW1" (Some "ListBullet") ].
Proof. reflexivity. Qed.

(** ** The CSV text and its reading *)

Lemma append_assoc (a b c : string) : (a ++ b) ++ c = a ++ (b ++ c).
Proof. induction a as [| x a IH]; simpl; [ reflexivity | now rewrite IH ]. Qed.

Lemma append_nil_r (a : string) : a ++ EmptyString = a.
Proof. induction a as [| x a IH]; simpl; [ reflexivity | now rewrite IH ]. Qed.

Lemma utf8_app (a b : string) :
  Csv.utf8 (a ++ b) = (Csv.utf8 a ++ Csv.utf8 b)%list.
Proof.
  induction a as [| x a IH]; simpl; [ reflexivity | ].
  now rewrite IH, app_assoc.
Qed.

Lemma write_rows_spec (p : Csv.platform) (rows : list MailMergeRow) :
  forall buf,
    Csv.write_rows buf (Csv.os_linesep p) rows
    = buf ++ lines_text (map (fun r => csv_line p (Csv.row_values r)) rows).
Proof.
  induction rows as [| r rest IH]; intros buf.
  - cbn [Csv.write_rows map lines_text fold_right]. now rewrite append_nil_r.
  - cbn [Csv.write_rows map lines_text fold_right].
    fold (lines_text (map (fun r => csv_line p (Csv.row_values r)) rest)).
    rewrite IH. unfold Csv.writerow, csv_line.
    now rewrite !append_assoc.
Qed.

Lemma to_csv_lines (p : Csv.platform) (rows : list MailMergeRow) :
  Csv.to_csv p rows
  = csv_line p (Csv.frame_columns rows)
    ++ lines_text (map (fun r => csv_line p (Csv.row_values r)) rows).
Proof. unfold Csv.to_csv. now rewrite write_rows_spec. Qed.

Module ReaderFacts.
Import CsvReader.

Lemma run_app (a : string) :
  forall st b, run st (a ++ b) = run (run st a) b.
Proof. induction a as [| c a IH]; intros st b; simpl; [ reflexivity | apply IH ]. Qed.

Lemma push_append (f : string) (c : ascii) (s : string) :
  push f c ++ s = f ++ String c s.
Proof. unfold push. now rewrite append_assoc. Qed.

(** Inside quotes the escaped text is read back as the text. *)
Lemma run_escape (s : string) :
  forall f row rows,
    run {| st_mode := InQuoted; st_field := f;
           st_row := row; st_rows := rows |} (Csv.escape s)
    = {| st_mode := InQuoted; st_field := f ++ s;
         st_row := row; st_rows := rows |}.
Proof.
  induction s as [| c s IH]; intros f row rows.
  - simpl. now rewrite append_nil_r.
  - cbn [Csv.escape]. destruct (Ascii.eqb c DQUOTE) eqn:Hc.
    + apply Ascii.eqb_eq in Hc. subst c.
      cbn [run]. unfold step at 2. cbn [st_mode].
      change (Ascii.eqb DQUOTE DQUOTE) with true. cbv iota.
      unfold step at 1. cbn [st_mode in_mode].
      change (terminator DQUOTE) with (@None mode). cbv iota.
      change (Ascii.eqb DQUOTE DQUOTE) with true. cbv iota.
      unfold in_mode. cbn [st_field st_row st_rows].
      rewrite IH, push_append. reflexivity.
    + cbn [run]. unfold step at 1. cbn [st_mode]. rewrite Hc.
      unfold in_mode. cbn [st_field st_row st_rows].
      rewrite IH, push_append. reflexivity.
Qed.

(** A quoted field read at the start of a field. *)
Lemma run_quote_field (m : mode) (s : string) (row : list string)
  (rows : list (list string)) (t : string) :
  m = RecordStart \/ m = FieldStart ->
  run {| st_mode := m; st_field := EmptyString;
         st_row := row; st_rows := rows |} (Csv.quote_field s ++ t)
  = run {| st_mode := QuoteSeen; st_field := s;
           st_row := row; st_rows := rows |} t.
Proof.
  intros Hm. unfold Csv.quote_field. cbn [append run].
  assert (Hstep :
    step {| st_mode := m; st_field := EmptyString;
            st_row := row; st_rows := rows |} DQUOTE
    = {| st_mode := InQuoted; st_field := EmptyString;
         st_row := row; st_rows := rows |})
    by (destruct Hm as [-> | ->]; reflexivity).
  rewrite Hstep, append_assoc, run_app, run_escape.
  reflexivity.
Qed.

(** One written line read from the start of a record or of a field. *)
Lemma run_line (p : Csv.platform) (fs : list string) :
  forall (m : mode) (f : string) (row : list string)
         (rows : list (list string)) (t : string),
    m = RecordStart \/ m = FieldStart ->
    run {| st_mode := m; st_field := EmptyString;
           st_row := row; st_rows := rows |} (csv_line p (f :: fs) ++ t)
    = run {| st_mode := RecordStart; st_field := EmptyString;
             st_row := []; st_rows := (rows ++ [row ++ f :: fs])%list |} t.
Proof.
  unfold csv_line.
  induction fs as [| g fs IH]; intros m f row rows t Hm.
  - cbn [map Py.join]. rewrite append_assoc, run_quote_field by exact Hm.
    destruct p; reflexivity.
  - change (Py.join "," (map Csv.quote_field (f :: g :: fs)))
      with (Csv.quote_field f
            ++ "," ++ Py.join "," (map Csv.quote_field (g :: fs))).
    rewrite !append_assoc, run_quote_field by exact Hm.
    cbn [append run].
    change (step {| st_mode := QuoteSeen; st_field := f;
                    st_row := row; st_rows := rows |} ",")
      with {| st_mode := FieldStart; st_field := EmptyString;
              st_row := (row ++ [f])%list; st_rows := rows |}.
    rewrite <- append_assoc, IH by (now right).
    now rewrite <- app_assoc.
Qed.

Lemma run_lines (p : Csv.platform) (rs : list (list string)) :
  Forall (fun fields => fields <> []) rs ->
  forall (rows : list (list string)) (t : string),
    run {| st_mode := RecordStart; st_field := EmptyString;
           st_row := []; st_rows := rows |}
        (lines_text (map (csv_line p) rs) ++ t)
    = run {| st_mode := RecordStart; st_field := EmptyString;
             st_row := []; st_rows := (rows ++ rs)%list |} t.
Proof.
  induction 1 as [| fields rs Hne Hrs IH]; intros rows t.
  - simpl. now rewrite app_nil_r.
  - destruct fields as [| f fs]; [ congruence | ].
    cbn [map lines_text fold_right]. fold (lines_text (map (csv_line p) rs)).
    rewrite append_assoc, run_line by (now left).
    rewrite IH, <- app_assoc. reflexivity.
Qed.

(** Reading back a text of written lines gives the fields written. *)
Lemma parse_lines (p : Csv.platform) (rs : list (list string)) :
  Forall (fun fields => fields <> []) rs ->
  parse (lines_text (map (csv_line p) rs)) = rs.
Proof.
  intros H. unfold parse, init.
  rewrite <- (append_nil_r (lines_text (map (csv_line p) rs))).
  rewrite (run_lines p rs H). reflexivity.
Qed.

Lemma decode_utf8_char (c : ascii) (rest : list Byte.byte) :
  decode_utf8 (Csv.utf8_char c ++ rest)
  = option_map (String c) (decode_utf8 rest).
Proof.
  destruct c as [[] [] [] [] [] [] [] []]; reflexivity.
Qed.

Lemma decode_utf8_encode (s : string) : decode_utf8 (Csv.utf8 s) = Some s.
Proof.
  induction s as [| c s IH]; [ reflexivity | ].
  cbn [Csv.utf8]. now rewrite decode_utf8_char, IH.
Qed.

Lemma decode_utf8_sig_encode (s : string) :
  decode_utf8_sig (Csv.encode_utf8_sig s) = Some s.
Proof. exact (decode_utf8_encode s). Qed.
End ReaderFacts.

(** C8. When there are records and the projector returns their rows, the
    bytes offered for download are the byte-order mark followed by the
    UTF-8 of the CSV text; the text begins with the header line of the
    three quoted names FirstName, Email, MissedHomeworks and continues
    with one line per row, every field of every line wrapped in quotes;
    the MissedHomeworks field of a row is the record's missed entries
    joined by line feeds; and decoding the bytes and reading the text with
    the quoted-CSV reader gives back the header and, for every row, its
    three fields exactly, line feeds included. *)
Theorem csv_export_round_trip
  (p : Csv.platform) (records : list StudentRecord) (rows : list MailMergeRow) :
  records <> [] ->
  build_mail_merge_dataframe records = Ok rows ->
  exists text body,
    mail_merge_csv_bytes p records = Ok (Some (Csv.BOM ++ Csv.utf8 text)%list)
    /\ text = csv_line p ["FirstName"; "Email"; "MissedHomeworks"] ++ body
    /\ body
       = lines_text
           (map (fun r => csv_line p [FirstName r; Email r; MissedHomeworks r])
                rows)
    /\ (Csv.BOM ++ Csv.utf8 text
        = Csv.BOM
          ++ Csv.utf8 (csv_line p ["FirstName"; "Email"; "MissedHomeworks"])
          ++ Csv.utf8 body)%list
    /\ map MissedHomeworks rows
       = map (fun r => Py.join newline (missed r)) records
    /\ CsvReader.decode_utf8_sig (Csv.BOM ++ Csv.utf8 text)%list = Some text
    /\ CsvReader.parse text
       = ["FirstName"; "Email"; "MissedHomeworks"]
         :: map (fun r => [FirstName r; Email r; MissedHomeworks r]) rows.
Proof.
  intros Hne Hrows.
  pose proof (mail_merge_loop_inv records [] rows Hrows) as Hmap.
  cbn [app] in Hmap.
  destruct records as [| r rest]; [ congruence | ].
  exists (Csv.to_csv p rows).
  exists (lines_text (map (fun r => csv_line p (Csv.row_values r)) rows)).
  assert (Htext : Csv.to_csv p rows
                  = csv_line p Csv.header
                    ++ lines_text
                         (map (fun r => csv_line p (Csv.row_values r)) rows)).
  { rewrite to_csv_lines. subst rows. reflexivity. }
  split.
  { unfold mail_merge_csv_bytes. rewrite Hrows. reflexivity. }
  split; [ exact Htext | ].
  split; [ reflexivity | ].
  split; [ now rewrite Htext, utf8_app | ].
  split.
  { subst rows. rewrite map_map. reflexivity. }
  split; [ apply ReaderFacts.decode_utf8_sig_encode | ].
  rewrite Htext.
  change (csv_line p Csv.header
          ++ lines_text (map (fun r => csv_line p (Csv.row_values r)) rows))
    with (lines_text
            (csv_line p Csv.header
             :: map (fun r => csv_line p (Csv.row_values r)) rows)).
  rewrite <- (map_map Csv.row_values (csv_line p)).
  change (csv_line p Csv.header :: map (csv_line p) (map Csv.row_values rows))
    with (map (csv_line p) (Csv.header :: map Csv.row_values rows)).
  apply ReaderFacts.parse_lines.
  constructor; [ discriminate | ].
  apply Forall_forall. intros fields Hin.
  apply in_map_iff in Hin. destruct Hin as [row [<- _]]. discriminate.
Qed.

Lemma csv_export_round_trip_witness :
  [ann_record] <> []
  /\ build_mail_merge_dataframe [ann_record]
     = Ok [{| FirstName := "Ann"; Email := "a@e.edu";
              MissedHomeworks := "HW1" ++ newline ++ "HW3" |}]
  /\ exists text body,
       mail_merge_csv_bytes Csv.Posix [ann_record]
       = Ok (Some (Csv.BOM ++ Csv.utf8 text)%list)
       /\ text = csv_line Csv.Posix ["FirstName"; "Email"; "MissedHomeworks"]
                 ++ body
       /\ body
          = lines_text
              (map (fun r => csv_line Csv.Posix
                               [FirstName r; Email r; MissedHomeworks r])
                   [{| FirstName := "Ann"; Email := "a@e.edu";
                       MissedHomeworks := "HW1" ++ newline ++ "HW3" |}])
       /\ (Csv.BOM ++ Csv.utf8 text
           = Csv.BOM
             ++ Csv.utf8 (csv_line Csv.Posix
                            ["FirstName"; "Email"; "MissedHomeworks"])
             ++ Csv.utf8 body)%list
       /\ map MissedHomeworks
            [{| FirstName := "Ann"; Email := "a@e.edu";
                MissedHomeworks := "HW1" ++ newline ++ "HW3" |}]
          = map (fun r => Py.join newline (missed r)) [ann_record]
       /\ CsvReader.decode_utf8_sig (Csv.BOM ++ Csv.utf8 text)%list = Some text
       /\ CsvReader.parse text
          = ["FirstName"; "Email"; "MissedHomeworks"]
            :: map (fun r => [FirstName r; Email r; MissedHomeworks r])
                   [{| FirstName := "Ann"; Email := "a@e.edu";
                       MissedHomeworks := "HW1" ++ newline ++ "HW3" |}].
Proof.
  split; [ discriminate | ].
  split; [ reflexivity | ].
  apply (csv_export_round_trip Csv.Posix [ann_record]);
    [ discriminate | reflexivity ].
Defined.

(** The example of the specification on both platforms: the two missed
    entries travel as one quoted field holding a line feed, and come back
    as that same text. *)
Example hw1_hw3_round_trip :
  forall p,
    exists bytes text,
      mail_merge_csv_bytes p [ann_record] = Ok (Some bytes)
      /\ CsvReader.decode_utf8_sig bytes = Some text
      /\ text
         = csv_line p ["FirstName"; "Email"; "MissedHomeworks"]
           ++ Csv.quote_field "Ann" ++ ","
           ++ Csv.quote_field "a@e.edu" ++ ","
           ++ String DQUOTE ("HW1" ++ newline ++ "HW3" ++ String DQUOTE EmptyString)
           ++ Csv.os_linesep p
      /\ CsvReader.parse text
         = [ ["FirstName"; "Email"; "MissedHomeworks"];
             ["Ann"; "a@e.edu"; "HW1" ++ newline ++ "HW3"] ].
Proof.
  intros p. eexists. eexists.
  split; [ reflexivity | ].
  split; [ apply ReaderFacts.decode_utf8_sig_encode | ].
  destruct p; split; reflexivity.
Qed.

(** * Further properties of the code *)

(** ** The extractor *)

Lemma distinct_NoDup (l : list string) : distinct l = true -> NoDup l.
Proof.
  induction l as [| x l IH]; simpl; intros H; [ constructor | ].
  apply andb_true_iff in H. destruct H as [Hx Hl].
  constructor; [ | now apply IH ].
  intros Hin. apply mem_In in Hin.
  rewrite Hin in Hx. discriminate.
Qed.

Lemma NoDup_skipn {A} (n : nat) (l : list A) : NoDup l -> NoDup (skipn n l).
Proof.
  intros H. rewrite <- (firstn_skipn n l) in H.
  now apply NoDup_app_remove_l in H.
Qed.

Lemma slice_from_skipn {A} (l : list A) (i : Z) :
  exists k, Py.slice_from l i = skipn k l.
Proof. unfold Py.slice_from. eexists. reflexivity. Qed.

(** X1. On a well-formed dataset the extractor ends in one of three ways
    and no other: the missing-column error, when an identity column is
    absent; the no-assignment error, when they are all present and no
    column lies at or after the start index; or a list of records.  Row
    processing itself never fails: no lookup of a row raises. *)
Theorem extractor_fails_only_in_validation
  (order : SetOrder) (df : DataFrame) (cfg : Config) :
  well_formed df = true ->
  (identity_present df cfg = false
   /\ generate_missed_homework_report df cfg
      = Raise (ValueError
                 (missing_message
                    (set_difference (mk_set (identity_columns cfg))
                                    (mk_set (columns df))))))
  \/ (identity_present df cfg = true
      /\ score_columns_of df cfg = []
      /\ generate_missed_homework_report df cfg
         = Raise (ValueError (no_assignment_message (scores_start_index cfg))))
  \/ (identity_present df cfg = true
      /\ score_columns_of df cfg <> []
      /\ exists records, generate_missed_homework_report df cfg = Ok records).
Proof.
  intros Hwf. destruct (identity_present df cfg) eqn:Hid.
  - right. destruct (score_columns_of df cfg) as [| c l] eqn:Hsc.
    + left. split; [ reflexivity | ]. split; [ reflexivity | ].
      rewrite (generate_present df cfg Hid), Hsc. reflexivity.
    + right. split; [ reflexivity | ]. split; [ discriminate | ].
      eexists. apply generate_valid. unfold valid_input.
      rewrite Hwf, Hid, Hsc. reflexivity.
  - left. split; [ reflexivity | ]. now apply generate_missing.
Qed.

Lemma extractor_fails_only_in_validation_witness :
  well_formed gradebook = true
  /\ ((identity_present gradebook default_config = false
       /\ @generate_missed_homework_report insertion_order
            gradebook default_config
          = Raise (ValueError
                     (missing_message
                        (@set_difference insertion_order
                           (@mk_set insertion_order
                              (identity_columns default_config))
                           (@mk_set insertion_order (columns gradebook))))))
      \/ (identity_present gradebook default_config = true
          /\ score_columns_of gradebook default_config = []
          /\ @generate_missed_homework_report insertion_order
               gradebook default_config
             = Raise (ValueError
                        (no_assignment_message
                           (scores_start_index default_config))))
      \/ (identity_present gradebook default_config = true
          /\ score_columns_of gradebook default_config <> []
          /\ exists records,
               @generate_missed_homework_report insertion_order
                 gradebook default_config = Ok records)).
Proof.
  split; [ reflexivity | ].
  apply (extractor_fails_only_in_validation insertion_order
           gradebook default_config).
  reflexivity.
Defined.

(** X2. A negative start index counts from the end, as Python slices do:
    with all identity columns present, index [-k] makes the last [k]
    columns the score columns (all columns when [k] exceeds their
    number), so there is always at least one and the no-assignment error
    is never raised. *)
Theorem negative_start_index_counts_from_end
  (order : SetOrder) (df : DataFrame) (cfg : Config) :
  identity_present df cfg = true ->
  scores_start_index cfg < 0 ->
  score_columns_of df cfg
  = skipn (List.length (columns df) - Z.to_nat (- scores_start_index cfg))
          (columns df)
  /\ score_columns_of df cfg <> []
  /\ generate_missed_homework_report df cfg
     = scan_rows cfg (score_columns_of df cfg) (iterrows df) [].
Proof.
  intros Hid Hneg.
  assert (Hcols : columns df <> []).
  { pose proof (proj1 (identity_present_iff df cfg) Hid
                  (first_name_col cfg) (or_introl eq_refl)) as Hin.
    intros Hnil. rewrite Hnil in Hin. destruct Hin. }
  assert (Hslice :
    score_columns_of df cfg
    = skipn (List.length (columns df) - Z.to_nat (- scores_start_index cfg))
            (columns df)).
  { unfold score_columns_of, Py.slice_from.
    apply Z.ltb_lt in Hneg. rewrite Hneg. apply Z.ltb_lt in Hneg.
    f_equal. lia. }
  assert (Hsome : score_columns_of df cfg <> []).
  { rewrite Hslice. intros Hnil.
    apply (f_equal (@List.length string)) in Hnil.
    rewrite length_skipn in Hnil. cbn [List.length] in Hnil.
    destruct (columns df) as [| c l]; [ congruence | ].
    cbn [List.length] in Hnil. lia. }
  split; [ exact Hslice | ]. split; [ exact Hsome | ].
  rewrite (generate_present df cfg Hid).
  destruct (score_columns_of df cfg); [ congruence | reflexivity ].
Qed.

Lemma negative_start_index_counts_from_end_witness :
  identity_present gradebook last_column_config = true
  /\ scores_start_index last_column_config < 0
  /\ score_columns_of gradebook last_column_config
     = skipn (List.length (columns gradebook)
              - Z.to_nat (- scores_start_index last_column_config))
             (columns gradebook)
  /\ score_columns_of gradebook last_column_config <> []
  /\ @generate_missed_homework_report insertion_order
       gradebook last_column_config
     = scan_rows last_column_config
         (score_columns_of gradebook last_column_config)
         (iterrows gradebook) [].
Proof.
  split; [ reflexivity | ].
  split; [ reflexivity | ].
  apply (negative_start_index_counts_from_end insertion_order
           gradebook last_column_config); reflexivity.
Defined.

(** With the start index at [-1] only [HW3] is scanned. *)
Example last_column_report :
  @generate_missed_homework_report insertion_order gradebook last_column_config
  = Ok [ {| name := "Ann Lee"; group := SInt 1; email := "a@e.edu";
            missed := ["HW3"] |} ].
Proof. reflexivity. Qed.

(** X3. Every record the extractor returns is clean: trimming its name or
    its e-mail changes nothing, its [missed] list is not empty, names no
    column twice and only columns at or after the start index; and there
    are at most as many records as rows. *)
Theorem records_are_clean
  (order : SetOrder) (df : DataFrame) (cfg : Config)
  (records : list StudentRecord) :
  valid_input df cfg = true ->
  generate_missed_homework_report df cfg = Ok records ->
  (List.length records <= List.length (data df))%nat
  /\ Forall (fun r =>
               Py.strip (name r) = name r
               /\ Py.strip (email r) = email r
               /\ missed r <> []
               /\ NoDup (missed r)
               /\ incl (missed r) (score_columns_of df cfg))
            records.
Proof.
  intros Hvalid Hgen.
  rewrite (generate_valid order df cfg Hvalid) in Hgen.
  injection Hgen as <-.
  unfold valid_input in Hvalid.
  apply andb_true_iff in Hvalid. destruct Hvalid as [Hvalid _].
  apply andb_true_iff in Hvalid. destruct Hvalid as [Hwf _].
  unfold well_formed in Hwf.
  apply andb_true_iff in Hwf. destruct Hwf as [Hdistinct _].
  split.
  - rewrite length_map.
    eapply Nat.le_trans; [ apply filter_length_le | ].
    unfold iterrows. now rewrite length_map.
  - apply Forall_forall. intros r Hr.
    apply in_map_iff in Hr. destruct Hr as [row [<- Hrow]].
    apply filter_In in Hrow. destruct Hrow as [_ Hmiss].
    unfold record_of, token. cbn [name email missed].
    split; [ apply strip_idempotent | ].
    split; [ apply strip_idempotent | ].
    split.
    { unfold has_miss in Hmiss.
      destruct (missed_of (score_columns_of df cfg) row);
        [ discriminate | discriminate ]. }
    split.
    { unfold missed_of. apply NoDup_filter.
      destruct (slice_from_skipn (columns df) (scores_start_index cfg))
        as [k Hk].
      unfold score_columns_of. rewrite Hk.
      apply NoDup_skipn, distinct_NoDup, Hdistinct. }
    intros c Hc. unfold missed_of in Hc. now apply filter_In in Hc.
Qed.

Lemma records_are_clean_witness :
  valid_input gradebook default_config = true
  /\ @generate_missed_homework_report insertion_order gradebook default_config
     = Ok gradebook_records
  /\ (List.length gradebook_records <= List.length (data gradebook))%nat
  /\ Forall (fun r =>
               Py.strip (name r) = name r
               /\ Py.strip (email r) = email r
               /\ missed r <> []
               /\ NoDup (missed r)
               /\ incl (missed r) (score_columns_of gradebook default_config))
            gradebook_records.
Proof.
  split; [ reflexivity | ].
  split; [ reflexivity | ].
  apply (records_are_clean insertion_order gradebook default_config
           gradebook_records); reflexivity.
Defined.

Lemma valid_input_rows (cols : list string) (d1 d2 : list (list scalar))
  (cfg : Config) :
  valid_input {| columns := cols; data := d1 ++ d2 |} cfg = true ->
  valid_input {| columns := cols; data := d1 |} cfg = true
  /\ valid_input {| columns := cols; data := d2 |} cfg = true.
Proof.
  unfold valid_input, well_formed, identity_present, score_columns_of.
  cbn [columns data]. rewrite forallb_app.
  intros H.
  apply andb_true_iff in H. destruct H as [H Hsome].
  apply andb_true_iff in H. destruct H as [H Hid].
  apply andb_true_iff in H. destruct H as [Hdistinct Hlen].
  apply andb_true_iff in Hlen. destruct Hlen as [Hlen1 Hlen2].
  rewrite Hdistinct, Hid, Hsome, Hlen1, Hlen2. now split.
Qed.

(** X4. Rows are processed one by one and independently: on a valid
    input whose rows are split in two parts, each part is a valid input
    with the same columns, and the records of the whole are the records of
    the first part followed by those of the second. *)
Theorem extractor_distributes_over_rows
  (order : SetOrder) (cols : list string) (d1 d2 : list (list scalar))
  (cfg : Config) :
  valid_input {| columns := cols; data := d1 ++ d2 |} cfg = true ->
  exists r1 r2,
    generate_missed_homework_report {| columns := cols; data := d1 |} cfg
    = Ok r1
    /\ generate_missed_homework_report {| columns := cols; data := d2 |} cfg
       = Ok r2
    /\ generate_missed_homework_report
         {| columns := cols; data := d1 ++ d2 |} cfg
       = Ok (r1 ++ r2)%list.
Proof.
  intros Hvalid.
  destruct (valid_input_rows cols d1 d2 cfg Hvalid) as [H1 H2].
  rewrite (generate_valid order _ cfg Hvalid).
  rewrite (generate_valid order _ cfg H1).
  rewrite (generate_valid order _ cfg H2).
  do 2 eexists. split; [ reflexivity | ]. split; [ reflexivity | ].
  unfold iterrows, score_columns_of. cbn [columns data].
  now rewrite map_app, filter_app, map_app.
Qed.

Lemma extractor_distributes_over_rows_witness :
  valid_input
    {| columns := gradebook_columns;
       data := firstn 1 (data gradebook) ++ skipn 1 (data gradebook) |}
    default_config = true
  /\ exists r1 r2,
       @generate_missed_homework_report insertion_order
         {| columns := gradebook_columns; data := firstn 1 (data gradebook) |}
         default_config = Ok r1
       /\ @generate_missed_homework_report insertion_order
            {| columns := gradebook_columns;
               data := skipn 1 (data gradebook) |}
            default_config = Ok r2
       /\ @generate_missed_homework_report insertion_order
            {| columns := gradebook_columns;
               data := firstn 1 (data gradebook)
                       ++ skipn 1 (data gradebook) |}
            default_config = Ok (r1 ++ r2)%list.
Proof.
  split; [ reflexivity | ].
  apply (extractor_distributes_over_rows insertion_order gradebook_columns
           (firstn 1 (data gradebook)) (skipn 1 (data gradebook))
           default_config).
  reflexivity.
Defined.

(** ** The mail-merge projector, continued *)

Lemma forallb_named (records : list StudentRecord) :
  forallb (fun r => negb (blank (name r))) records = true
  <-> Forall (fun r => blank (name r) = false) records.
Proof.
  rewrite forallb_forall, Forall_forall.
  split; intros H r Hr; specialize (H r Hr);
    destruct (blank (name r)); simpl in *; congruence.
Qed.

Lemma not_all_named (records : list StudentRecord) :
  forallb (fun r => negb (blank (name r))) records = false ->
  Exists (fun r => blank (name r) = true) records.
Proof.
  induction records as [| r rest IH]; simpl; [ discriminate | ].
  destruct (blank (name r)) eqn:Hb; simpl.
  - intros _. now constructor.
  - intros H. apply Exists_cons_tl. now apply IH.
Qed.

(** X5. The projector succeeds exactly when no record has a blank name.
    Then it returns one row per record, in order, each with the first
    token of the name, the e-mail unchanged and the missed entries joined
    by line feeds.  If some name is blank it raises [IndexError] and
    returns no row at all, not even for the records before the blank
    one. *)
Theorem mail_merge_all_or_nothing (records : list StudentRecord) :
  build_mail_merge_dataframe records
  = if forallb (fun r => negb (blank (name r))) records
    then Ok (map (fun r =>
                    {| FirstName := hd EmptyString (Py.split (name r));
                       Email := email r;
                       MissedHomeworks := Py.join newline (missed r) |})
                 records)
    else Raise IndexError.
Proof.
  destruct (forallb (fun r => negb (blank (name r))) records) eqn:Hall.
  - apply forallb_named in Hall. exact (mail_merge_loop_ok records Hall []).
  - apply not_all_named in Hall.
    exact (mail_merge_loop_raises records Hall []).
Qed.

Lemma split_from_some_head (s : string) :
  forall w,
    exists pre tail,
      s = pre ++ tail
      /\ no_space pre = true
      /\ at_word_end tail
      /\ hd EmptyString (Py.split_from (Some w) s) = w ++ pre.
Proof.
  induction s as [| c s IH]; intros w.
  - exists EmptyString, EmptyString. simpl.
    repeat split. now rewrite append_nil_r.
  - cbn [Py.split_from]. destruct (Py.isspace c) eqn:Hc.
    + exists EmptyString, (String c s). simpl.
      repeat split; [ exact Hc | now rewrite append_nil_r ].
    + destruct (IH (w ++ String c EmptyString)) as [pre [tail [Hs [Hp [Ht Hh]]]]].
      exists (String c pre), tail.
      split; [ simpl; now rewrite Hs | ].
      split; [ simpl; now rewrite Hc, Hp | ].
      split; [ exact Ht | ].
      rewrite Hh, append_assoc. reflexivity.
Qed.

(** The first token [split] returns stands in the text after leading
    whitespace and ends at whitespace or at the end. *)
Lemma split_head (s : string) :
  blank s = false ->
  exists ws tail,
    s = ws ++ hd EmptyString (Py.split s) ++ tail
    /\ blank ws = true
    /\ at_word_end tail
    /\ no_space (hd EmptyString (Py.split s)) = true
    /\ hd EmptyString (Py.split s) <> EmptyString.
Proof.
  unfold Py.split. induction s as [| c s IH]; [ discriminate | ].
  cbn [blank Py.split_from]. destruct (Py.isspace c) eqn:Hc.
  - simpl. intros Hb.
    destruct (IH Hb) as [ws [tail [Hs [Hws [Ht [Hn Hne]]]]]].
    exists (String c ws), tail.
    split; [ simpl; now rewrite <- Hs | ].
    split; [ simpl; now rewrite Hc | ].
    repeat split; assumption.
  - intros _.
    destruct (split_from_some_head s (EmptyString ++ String c EmptyString))
      as [pre [tail [Hs [Hp [Ht Hh]]]]].
    exists EmptyString, tail. rewrite Hh.
    split; [ simpl; now rewrite Hs | ].
    split; [ reflexivity | ].
    split; [ exact Ht | ].
    split; [ simpl; now rewrite Hc, Hp | ].
    discriminate.
Qed.

(** X6. When the projector returns rows, the row of each record has as
    first name a non-empty text free of whitespace that stands in the
    record's name after leading whitespace only and is followed by
    whitespace or by nothing; the e-mail is carried over as it is. *)
Theorem first_name_is_first_token
  (records : list StudentRecord) (rows : list MailMergeRow) :
  build_mail_merge_dataframe records = Ok rows ->
  Forall2 (fun r row =>
             Email row = email r
             /\ FirstName row <> EmptyString
             /\ no_space (FirstName row) = true
             /\ exists ws tail,
                  name r = ws ++ FirstName row ++ tail
                  /\ blank ws = true
                  /\ at_word_end tail)
          records rows.
Proof.
  intros Hrows.
  assert (Hnamed : Forall (fun r => blank (name r) = false) records).
  { apply forallb_named.
    destruct (forallb (fun r => negb (blank (name r))) records) eqn:Hall;
      [ reflexivity | ].
    apply not_all_named in Hall.
    unfold build_mail_merge_dataframe in Hrows.
    rewrite (mail_merge_loop_raises records Hall []) in Hrows. discriminate. }
  apply (mail_merge_loop_inv records [] rows) in Hrows.
  cbn [app] in Hrows. subst rows.
  induction Hnamed as [| r rest Hr Hrest IH]; cbn [map]; constructor;
    [ | exact IH ].
  destruct (split_head (name r) Hr) as [ws [tail [Hs [Hws [Ht [Hn Hne]]]]]].
  unfold mail_row_of. cbn [FirstName Email].
  split; [ reflexivity | ]. split; [ exact Hne | ]. split; [ exact Hn | ].
  exists ws, tail. repeat split; assumption.
Qed.

Lemma first_name_is_first_token_witness :
  build_mail_merge_dataframe gradebook_records
  = Ok [ {| FirstName := "Ann"; Email := "a@e.edu";
            MissedHomeworks := "HW1" ++ newline ++ "HW3" |};
         {| FirstName := "Cy"; Email := "c@e.edu";
            MissedHomeworks := "HW2" |} ]
  /\ Forall2 (fun r row =>
                Email row = email r
                /\ FirstName row <> EmptyString
                /\ no_space (FirstName row) = true
                /\ exists ws tail,
                     name r = ws ++ FirstName row ++ tail
                     /\ blank ws = true
                     /\ at_word_end tail)
             gradebook_records
             [ {| FirstName := "Ann"; Email := "a@e.edu";
                  MissedHomeworks := "HW1" ++ newline ++ "HW3" |};
               {| FirstName := "Cy"; Email := "c@e.edu";
                  MissedHomeworks := "HW2" |} ].
Proof.
  split; [ reflexivity | ].
  apply (first_name_is_first_token gradebook_records). reflexivity.
Defined.

(** ** The document, continued *)

Lemma total_missed_from (records : list StudentRecord) :
  forall acc,
    fold_left (fun acc r => (acc + List.length (missed r))%nat) records acc
    = (acc + total_missed_of records)%nat.
Proof.
  unfold total_missed_of.
  induction records as [| r rest IH]; intros acc; simpl; [ lia | ].
  rewrite IH, (IH (List.length (missed r))). lia.
Qed.

Lemma total_missed_cons (r : StudentRecord) (rest : list StudentRecord) :
  total_missed_of (r :: rest)
  = (List.length (missed r) + total_missed_of rest)%nat.
Proof. unfold total_missed_of at 1. simpl. apply total_missed_from. Qed.

Lemma count_blocks_app (f : block -> bool) (a b : Document) :
  count_blocks f (a ++ b)%list = (count_blocks f a + count_blocks f b)%nat.
Proof. unfold count_blocks. now rewrite filter_app, length_app. Qed.

Lemma count_bullets_of_student (r : StudentRecord) :
  count_blocks is_bullet (student_blocks r) = List.length (missed r)
  /\ count_blocks (is_heading 1) (student_blocks r) = 1%nat
  /\ count_blocks (is_heading 0) (student_blocks r) = 0%nat.
Proof.
  unfold student_blocks, count_blocks. cbn [filter is_bullet is_heading].
  change (1 =? 1) with true. change (1 =? 0) with false. cbv iota.
  cbn [List.length].
  induction (missed r) as [| a l IH]; [ repeat split | ].
  cbn [map filter is_bullet is_heading].
  change (String.eqb "ListBullet" "ListBullet") with true. cbv iota.
  cbn [List.length]. destruct IH as [H1 [H2 H3]].
  repeat split; [ now rewrite H1 | exact H2 | exact H3 ].
Qed.

Lemma count_blocks_of_students (records : list StudentRecord) :
  count_blocks is_bullet (flat_map student_blocks records)
  = total_missed_of records
  /\ count_blocks (is_heading 1) (flat_map student_blocks records)
     = List.length records
  /\ count_blocks (is_heading 0) (flat_map student_blocks records) = 0%nat.
Proof.
  induction records as [| r rest IH]; [ repeat split | ].
  cbn [flat_map]. rewrite !count_blocks_app, total_missed_cons.
  destruct (count_bullets_of_student r) as [H1 [H2 H3]].
  destruct IH as [I1 [I2 I3]].
  rewrite H1, H2, H3, I1, I2, I3. repeat split.
Qed.

(** X7. The document has one title heading, one level-1 heading per
    record and one bullet paragraph per missed entry of all records
    together, and nothing else unless there are no records, where the one
    extra block is the informational paragraph.  The two counts are the
    numbers [main] shows as its metrics. *)
Theorem document_counts (records : list StudentRecord) (title : string) :
  let doc := build_word_report_bytes records title in
  count_blocks (is_heading 0) doc = 1%nat
  /\ count_blocks (is_heading 1) doc = List.length records
  /\ count_blocks is_bullet doc = total_missed_of records
  /\ List.length doc
     = match records with
       | [] => 2%nat
       | _ :: _ => (1 + List.length records + total_missed_of records)%nat
       end.
Proof.
  intros doc. subst doc. unfold build_word_report_bytes.
  destruct records as [| r rest]; [ repeat split | ].
  rewrite add_students_spec. unfold add_heading. cbn [app].
  change (Heading title 0 :: flat_map student_blocks (r :: rest))
    with ([Heading title 0] ++ flat_map student_blocks (r :: rest))%list.
  rewrite !count_blocks_app.
  destruct (count_blocks_of_students (r :: rest)) as [H1 [H2 H3]].
  rewrite H1, H2, H3.
  split; [ reflexivity | ]. split; [ reflexivity | ]. split; [ reflexivity | ].
  rewrite length_app. cbn [List.length].
  assert (Hlen : forall rs,
             List.length (flat_map student_blocks rs)
             = (List.length rs + total_missed_of rs)%nat).
  { induction rs as [| x rs IH]; [ reflexivity | ].
    cbn [flat_map]. rewrite length_app, IH, total_missed_cons.
    unfold student_blocks. cbn [List.length]. rewrite length_map. lia. }
  rewrite Hlen. cbn [List.length]. lia.
Qed.

(** ** The desktop variant *)

Module DesktopFacts.
Import ExcelToWord.

Lemma getitem_setitem_same {V} (d : dict V) (k : string) (v : V) :
  dict_getitem (dict_setitem d k v) k = Ok v.
Proof.
  induction d as [| [k' v'] d IH]; simpl.
  - now rewrite String.eqb_refl.
  - destruct (String.eqb k' k) eqn:Hk; simpl; now rewrite Hk.
Qed.

Lemma getitem_setitem_other {V} (d : dict V) (k k' : string) (v : V) :
  k' <> k -> dict_getitem (dict_setitem d k v) k' = dict_getitem d k'.
Proof.
  intros Hne. induction d as [| [k0 v0] d IH]; simpl.
  - apply String.eqb_neq in Hne. rewrite String.eqb_sym in Hne.
    now rewrite Hne.
  - destruct (String.eqb k0 k) eqn:Hk; simpl.
    + apply String.eqb_eq in Hk. subst k0.
      apply String.eqb_neq in Hne. rewrite String.eqb_sym in Hne.
      now rewrite Hne.
    + now rewrite IH.
Qed.

Lemma setitem_setitem {V} (d : dict V) (k : string) (v v' : V) :
  dict_setitem (dict_setitem d k v) k v' = dict_setitem d k v'.
Proof.
  induction d as [| [k0 v0] d IH]; simpl.
  - now rewrite String.eqb_refl.
  - destruct (String.eqb k0 k) eqn:Hk; simpl; rewrite Hk;
      [ reflexivity | now rewrite IH ].
Qed.

(** Assigning to a key that is absent appends it; to one that is there,
    leaves the keys as they are. *)
Lemma keys_setitem {V} (d : dict V) (k : string) (v : V) :
  map fst (dict_setitem d k v)
  = if mem k (map fst d) then map fst d else (map fst d ++ [k])%list.
Proof.
  induction d as [| [k0 v0] d IH]; [ reflexivity | ].
  cbn [dict_setitem map fst mem existsb]. fold (mem k (map fst d)).
  rewrite (String.eqb_sym k k0).
  destruct (String.eqb k0 k) eqn:Hk; [ reflexivity | ].
  cbn [map fst orb]. rewrite IH.
  destruct (mem k (map fst d)); reflexivity.
Qed.

Lemma keys_setitem_NoDup {V} (d : dict V) (k : string) (v : V) :
  NoDup (map fst d) -> NoDup (map fst (dict_setitem d k v)).
Proof.
  intros H. rewrite keys_setitem.
  destruct (mem k (map fst d)) eqn:Hk; [ exact H | ].
  apply NoDup_app; [ exact H | constructor; [ intros [] | constructor ] | ].
  intros x Hx [<- | []]. apply mem_In in Hx. congruence.
Qed.

(** The desktop test [row[column] == 0] and the other variant's test
    [pd.notna(val) and val == 0] agree on every cell. *)
Lemma is_miss_eq_zero (v : scalar) : is_miss v = eq_zero v.
Proof.
  unfold is_miss. destruct v as [z | f | s]; try reflexivity.
  destruct f; reflexivity.
Qed.

(** The inner loop adds the row's misses to the list under the name. *)
Lemma scan_columns_spec (row : Series) (student_name : string)
  (score_columns : list string) :
  has_columns score_columns row ->
  forall d l,
    dict_getitem d student_name = Ok l ->
    scan_columns row student_name score_columns d
    = Ok (dict_setitem d student_name (l ++ missed_of score_columns row)%list).
Proof.
  induction score_columns as [| c rest IH]; intros Hhas d l Hl.
  - cbn [scan_columns missed_of filter]. rewrite app_nil_r. f_equal.
    clear Hhas. induction d as [| [k0 v0] d IHd]; [ discriminate | ].
    simpl in *. destruct (String.eqb k0 student_name) eqn:Hk.
    + now injection Hl as ->.
    + f_equal. now apply IHd.
  - destruct (Hhas c (or_introl eq_refl)) as [v Hv].
    assert (Hrest : has_columns rest row)
      by (intros x Hx; apply Hhas; now right).
    cbn [scan_columns]. rewrite Hv. cbn [bind].
    unfold missed_of. cbn [filter]. fold (missed_of rest row).
    rewrite (getitem_cell _ _ _ Hv), is_miss_eq_zero.
    destruct (eq_zero v).
    + rewrite Hl. cbn [bind].
      rewrite (IH Hrest _ (l ++ [c])%list)
        by apply getitem_setitem_same.
      now rewrite setitem_setitem, <- app_assoc.
    + now apply IH.
Qed.

(** The loop over the rows assigns to each row's name the row's misses. *)
Lemma desktop_scan_rows_spec (score_columns : list string) (rows : list Series) :
  Forall (has_columns ["First Name"; "Last Name"]) rows ->
  Forall (has_columns score_columns) rows ->
  forall d,
    scan_rows score_columns rows d
    = Ok (fold_left
            (fun d kv => dict_setitem d (fst kv) (snd kv))
            (map (fun row => (desktop_name row, missed_of score_columns row))
                 rows) d).
Proof.
  induction rows as [| row rest IH]; intros Hn Hs d; [ reflexivity | ].
  inversion Hn as [| ? ? Hn1 Hn']; subst.
  inversion Hs as [| ? ? Hs1 Hs']; subst.
  destruct (Hn1 "First Name") as [fv Hf]; [ simpl; tauto | ].
  destruct (Hn1 "Last Name") as [lv Hl]; [ simpl; tauto | ].
  cbn [scan_rows]. rewrite Hf, Hl. cbn [bind].
  rewrite (scan_columns_spec row _ score_columns Hs1 _ [])
    by apply getitem_setitem_same.
  cbn [bind app]. rewrite setitem_setitem, (IH Hn' Hs').
  cbn [map fold_left fst snd]. unfold desktop_name.
  now rewrite (getitem_cell _ _ _ Hf), (getitem_cell _ _ _ Hl).
Qed.

Lemma getitem_absent (cols : list string) :
  forall (r : list scalar) (c : string),
    ~ In c cols -> getitem (combine cols r) c = Raise (KeyError c).
Proof.
  induction cols as [| k cols IH]; intros r c Hout; [ reflexivity | ].
  destruct r as [| v r]; [ reflexivity | ]. simpl.
  destruct (String.eqb k c) eqn:Hk.
  - apply String.eqb_eq in Hk. subst. exfalso. apply Hout. now left.
  - apply IH. intros Hin. apply Hout. now right.
Qed.

Lemma assign_from {V} (items : list (string * V)) :
  forall d,
    NoDup (map fst d ++ map fst items) ->
    fold_left (fun d kv => dict_setitem d (fst kv) (snd kv)) items d
    = (d ++ items)%list.
Proof.
  induction items as [| [k v] items IH]; intros d Hnd; simpl.
  - now rewrite app_nil_r.
  - assert (Hk : ~ In k (map fst d)).
    { intros Hin. apply NoDup_remove_2 in Hnd. apply Hnd.
      apply in_or_app. now left. }
    assert (Hset : dict_setitem d k v = (d ++ [(k, v)])%list).
    { clear Hnd IH. induction d as [| [k0 v0] d IHd]; [ reflexivity | ].
      simpl. destruct (String.eqb k0 k) eqn:E.
      - apply String.eqb_eq in E. subst. exfalso. apply Hk. now left.
      - rewrite IHd; [ reflexivity | ].
        intros Hin. apply Hk. now right. }
    rewrite Hset, IH.
    + now rewrite <- app_assoc.
    + rewrite map_app. cbn [map fst]. rewrite <- app_assoc. exact Hnd.
Qed.

Lemma assign_keeps (items : list (string * list string)) (k : string) :
  ~ In k (map fst items) ->
  forall d,
    dict_getitem
      (fold_left (fun d kv => dict_setitem d (fst kv) (snd kv)) items d) k
    = dict_getitem d k.
Proof.
  induction items as [| [k0 v0] items IH]; intros Hout d; [ reflexivity | ].
  cbn [fold_left fst snd]. rewrite IH.
  - apply getitem_setitem_other. intros ->. apply Hout. now left.
  - intros Hin. apply Hout. now right.
Qed.

Lemma assign_keys_NoDup (items : list (string * list string)) :
  forall d,
    NoDup (map fst d) ->
    NoDup (map fst
             (fold_left (fun d kv => dict_setitem d (fst kv) (snd kv))
                        items d)).
Proof.
  induction items as [| kv items IH]; intros d Hd; [ exact Hd | ].
  cbn [fold_left]. apply IH, keys_setitem_NoDup, Hd.
Qed.

Lemma assign_length (items : list (string * list string)) :
  forall d,
    (List.length
       (fold_left (fun d kv => dict_setitem d (fst kv) (snd kv)) items d)
     <= List.length d + List.length items)%nat.
Proof.
  induction items as [| kv items IH]; intros d; cbn [fold_left List.length];
    [ lia | ].
  eapply Nat.le_trans; [ apply IH | ].
  assert (H : (List.length (dict_setitem d (fst kv) (snd kv))
               <= S (List.length d))%nat).
  { rewrite <- (length_map fst), keys_setitem.
    destruct (mem (fst kv) (map fst d));
      rewrite ?length_app, !length_map; simpl; lia. }
  lia.
Qed.

End DesktopFacts.

Lemma desktop_ready_rows (df : DataFrame) :
  desktop_ready df = true ->
  Forall (has_columns ["First Name"; "Last Name"]) (iterrows df)
  /\ Forall (has_columns (Py.slice_from (columns df) 4)) (iterrows df).
Proof.
  unfold desktop_ready. intros H.
  apply andb_true_iff in H. destruct H as [H Hlast].
  apply andb_true_iff in H. destruct H as [Hwf Hfirst].
  apply mem_In in Hfirst, Hlast.
  pose proof (iterrows_have_columns df Hwf) as Hrows.
  split; (eapply Forall_impl; [ | exact Hrows ]); intros row;
    apply has_columns_incl.
  - intros c [<- | [<- | []]]; assumption.
  - apply slice_from_incl.
Qed.

(** On a frame with the two name columns the desktop extractor assigns,
    row by row, the row's misses to the row's name. *)
Lemma desktop_generate_spec (df : DataFrame) :
  desktop_ready df = true ->
  ExcelToWord.generate_missed_homework_report df
  = Ok (assign_all
          (map (fun row =>
                  (desktop_name row,
                   missed_of (Py.slice_from (columns df) 4) row))
               (iterrows df))).
Proof.
  intros Hready. destruct (desktop_ready_rows df Hready) as [Hn Hs].
  unfold ExcelToWord.generate_missed_homework_report.
  now rewrite (DesktopFacts.desktop_scan_rows_spec _ _ Hn Hs).
Qed.

(** X8. The desktop extractor, on a well-formed frame that has the two
    name columns and whose rows give pairwise different names, returns one
    entry per row, in row order: the name, which is the string forms of
    the two cells with a space between (not trimmed), and the columns
    from the fifth on whose value in the row equals zero.  Students
    without a miss are kept, with the empty list. *)
Theorem desktop_report_of_distinct_names (df : DataFrame) :
  desktop_ready df = true ->
  distinct (map desktop_name (iterrows df)) = true ->
  ExcelToWord.generate_missed_homework_report df
  = Ok (map (fun row =>
               (str (cell row "First Name") ++ " " ++ str (cell row "Last Name"),
                filter (fun c => eq_zero (cell row c))
                       (Py.slice_from (columns df) 4)))
            (iterrows df)).
Proof.
  intros Hready Hdistinct.
  rewrite (desktop_generate_spec df Hready). f_equal.
  unfold assign_all. rewrite DesktopFacts.assign_from.
  - cbn [app]. apply map_ext. intros row. unfold desktop_name, missed_of.
    f_equal. apply filter_ext. intros c. apply DesktopFacts.is_miss_eq_zero.
  - cbn [map app]. rewrite map_map. cbn [fst].
    apply distinct_NoDup, Hdistinct.
Qed.

Lemma desktop_report_of_distinct_names_witness :
  desktop_ready gradebook = true
  /\ distinct (map desktop_name (iterrows gradebook)) = true
  /\ ExcelToWord.generate_missed_homework_report gradebook
     = Ok (map (fun row =>
                  (str (cell row "First Name") ++ " "
                   ++ str (cell row "Last Name"),
                   filter (fun c => eq_zero (cell row c))
                          (Py.slice_from (columns gradebook) 4)))
               (iterrows gradebook)).
Proof.
  split; [ reflexivity | ].
  split; [ reflexivity | ].
  apply (desktop_report_of_distinct_names gradebook); reflexivity.
Defined.

(** The desktop report of [gradebook]: the untrimmed name of the third
    student, and the second student with no miss. *)
Example gradebook_desktop_report :
  ExcelToWord.generate_missed_homework_report gradebook
  = Ok [ ("Ann Lee", ["HW1"; "HW3"]); ("Bo Ray", []); (" Cy  Day", ["HW2"]) ].
Proof. reflexivity. Qed.

Lemma assign_keys_In (items : list (string * list string)) (n : string) :
  forall d,
    In n (map fst
            (fold_left
               (fun d kv => ExcelToWord.dict_setitem d (fst kv) (snd kv))
               items d))
    <-> In n (map fst d) \/ In n (map fst items).
Proof.
  induction items as [| [k v] items IH]; intros d; cbn [fold_left map fst snd].
  - simpl. tauto.
  - rewrite IH, DesktopFacts.keys_setitem.
    destruct (mem k (map fst d)) eqn:Hk.
    + apply mem_In in Hk. simpl. split; [ tauto | ].
      intros [H | [<- | H]]; tauto.
    + rewrite in_app_iff. simpl. tauto.
Qed.

(** X9. When several rows give the same name, the desktop extractor keeps
    one entry for the name and the misses of the last such row only: the
    assignment of the empty list at each row discards what an earlier row
    of that name had collected.  The names of the entries are pairwise
    different, they are exactly the names of the rows, and there are at
    most as many entries as rows. *)
Theorem desktop_report_keeps_last_row
  (df : DataFrame) (d : ExcelToWord.dict (list string)) :
  desktop_ready df = true ->
  ExcelToWord.generate_missed_homework_report df = Ok d ->
  NoDup (map fst d)
  /\ (List.length d <= List.length (data df))%nat
  /\ (forall n, In n (map fst d) <-> In n (map desktop_name (iterrows df)))
  /\ (forall before row after,
        iterrows df = (before ++ row :: after)%list ->
        ~ In (desktop_name row) (map desktop_name after) ->
        ExcelToWord.dict_getitem d (desktop_name row)
        = Ok (filter (fun c => eq_zero (cell row c))
                     (Py.slice_from (columns df) 4))).
Proof.
  intros Hready Hgen.
  rewrite (desktop_generate_spec df Hready) in Hgen. injection Hgen as <-.
  unfold assign_all.
  split; [ apply DesktopFacts.assign_keys_NoDup; constructor | ].
  split.
  { eapply Nat.le_trans; [ apply DesktopFacts.assign_length | ].
    cbn [List.length]. rewrite length_map. unfold iterrows.
    rewrite length_map. lia. }
  split.
  { intros n. rewrite assign_keys_In, map_map. cbn [map fst]. simpl. tauto. }
  intros before row after Hrows Hlast. rewrite Hrows.
  rewrite map_app, fold_left_app. cbn [map fold_left fst snd].
  rewrite DesktopFacts.assign_keeps.
  - rewrite DesktopFacts.getitem_setitem_same. f_equal.
    unfold missed_of. apply filter_ext. intros c.
    apply DesktopFacts.is_miss_eq_zero.
  - now rewrite map_map.
Qed.

Lemma desktop_report_keeps_last_row_witness :
  desktop_ready twins_sheet = true
  /\ ExcelToWord.generate_missed_homework_report twins_sheet
     = Ok [("Ann Lee", ["HW2"]); ("Bo Ray", [])]
  /\ NoDup (map fst [("Ann Lee", ["HW2"]); ("Bo Ray", @nil string)])
  /\ (List.length [("Ann Lee", ["HW2"]); ("Bo Ray", @nil string)]
      <= List.length (data twins_sheet))%nat
  /\ (forall n,
        In n (map fst [("Ann Lee", ["HW2"]); ("Bo Ray", @nil string)])
        <-> In n (map desktop_name (iterrows twins_sheet)))
  /\ (forall before row after,
        iterrows twins_sheet = (before ++ row :: after)%list ->
        ~ In (desktop_name row) (map desktop_name after) ->
        ExcelToWord.dict_getitem
          [("Ann Lee", ["HW2"]); ("Bo Ray", @nil string)] (desktop_name row)
        = Ok (filter (fun c => eq_zero (cell row c))
                     (Py.slice_from (columns twins_sheet) 4))).
Proof.
  split; [ reflexivity | ].
  split; [ reflexivity | ].
  apply (desktop_report_keeps_last_row twins_sheet); reflexivity.
Defined.

(** X10. The two variants agree on what was missed.  On an input that is
    valid for the web variant with the start index four, that has the two
    name columns the desktop variant reads and pairwise different student
    names, both return, and the missed lists of the records are, in
    order, the non-empty lists of the desktop entries: the test
    [row[column] == 0] is false on a blank cell, as
    [pd.notna(val) and val == 0] is. *)
Theorem variants_agree_on_misses
  (order : SetOrder) (df : DataFrame) (cfg : Config) :
  valid_input df cfg = true ->
  scores_start_index cfg = 4 ->
  desktop_ready df = true ->
  distinct (map desktop_name (iterrows df)) = true ->
  exists records d,
    generate_missed_homework_report df cfg = Ok records
    /\ ExcelToWord.generate_missed_homework_report df = Ok d
    /\ map missed records = filter nonempty (map snd d)
    /\ List.length d = List.length (data df).
Proof.
  intros Hvalid Hstart Hready Hdistinct.
  exists (map (record_of cfg (score_columns_of df cfg))
              (filter (has_miss (score_columns_of df cfg)) (iterrows df))).
  exists (map (fun row =>
                 (desktop_name row,
                  missed_of (Py.slice_from (columns df) 4) row))
              (iterrows df)).
  split; [ apply generate_valid, Hvalid | ].
  split.
  { rewrite (desktop_generate_spec df Hready). f_equal.
    unfold assign_all. rewrite DesktopFacts.assign_from; [ reflexivity | ].
    cbn [map app]. rewrite map_map. cbn [fst].
    apply distinct_NoDup, Hdistinct. }
  split.
  { unfold score_columns_of. rewrite Hstart, !map_map. cbn [missed snd record_of].
    rewrite <- (map_map (missed_of (Py.slice_from (columns df) 4)) (fun l => l)),
      map_id.
    rewrite filter_map_swap. reflexivity. }
  rewrite length_map. unfold iterrows. apply length_map.
Qed.

Lemma variants_agree_on_misses_witness :
  valid_input gradebook default_config = true
  /\ scores_start_index default_config = 4
  /\ desktop_ready gradebook = true
  /\ distinct (map desktop_name (iterrows gradebook)) = true
  /\ exists records d,
       @generate_missed_homework_report insertion_order gradebook
         default_config = Ok records
       /\ ExcelToWord.generate_missed_homework_report gradebook = Ok d
       /\ map missed records = filter nonempty (map snd d)
       /\ List.length d = List.length (data gradebook).
Proof.
  split; [ reflexivity | ].
  split; [ reflexivity | ].
  split; [ reflexivity | ].
  split; [ reflexivity | ].
  apply (variants_agree_on_misses insertion_order gradebook default_config);
    reflexivity.
Defined.

(** X11. The desktop variant does not validate the columns.  On a
    well-formed frame that lacks one of the two name columns it returns
    the empty dictionary when the sheet has no rows, and otherwise fails at
    the first row with the [KeyError] of the first of the two names that
    is absent. *)
Theorem desktop_missing_name_column (df : DataFrame) :
  well_formed df = true ->
  mem "First Name" (columns df) && mem "Last Name" (columns df) = false ->
  ExcelToWord.generate_missed_homework_report df
  = match data df with
    | [] => Ok []
    | _ :: _ =>
        Raise (KeyError (if mem "First Name" (columns df)
                         then "Last Name" else "First Name"))
    end.
Proof.
  intros Hwf Habs.
  pose proof (iterrows_have_columns df Hwf) as Hrows.
  unfold ExcelToWord.generate_missed_homework_report, iterrows in *.
  destruct (data df) as [| r rest]; [ reflexivity | ].
  cbn [map ExcelToWord.scan_rows] in *.
  inversion Hrows as [| ? ? Hrow _]; subst.
  destruct (mem "First Name" (columns df)) eqn:Hfirst.
  - apply mem_In in Hfirst. destruct (Hrow _ Hfirst) as [v Hv].
    rewrite Hv. cbn [bind]. simpl in Habs.
    rewrite DesktopFacts.getitem_absent; [ reflexivity | ].
    intros Hin. apply mem_In in Hin. congruence.
  - rewrite DesktopFacts.getitem_absent; [ reflexivity | ].
    intros Hin. apply mem_In in Hin. congruence.
Qed.

Lemma desktop_missing_name_column_witness :
  well_formed no_last_name_sheet = true
  /\ mem "First Name" (columns no_last_name_sheet)
     && mem "Last Name" (columns no_last_name_sheet) = false
  /\ ExcelToWord.generate_missed_homework_report no_last_name_sheet
     = Raise (KeyError "Last Name").
Proof.
  split; [ reflexivity | ].
  split; [ reflexivity | ].
  apply (desktop_missing_name_column no_last_name_sheet); reflexivity.
Defined.

(** ** The desktop document *)

Lemma add_assignments_spec (assignments : list string) :
  forall doc,
    ExcelToWord.add_assignments doc assignments
    = (doc ++ map (fun a => Paragraph (" " ++ a) (Some "ListBullet"))
                  assignments)%list.
Proof.
  induction assignments as [| a rest IH]; intros doc; simpl.
  - now rewrite app_nil_r.
  - rewrite IH. unfold add_paragraph. now rewrite <- app_assoc.
Qed.

Lemma add_items_spec (items : ExcelToWord.dict (list string)) :
  forall doc,
    ExcelToWord.add_items doc items
    = (doc ++ flat_map desktop_blocks items)%list.
Proof.
  induction items as [| [student assignments] rest IH]; intros doc.
  - simpl. now rewrite app_nil_r.
  - cbn [ExcelToWord.add_items flat_map].
    rewrite IH, add_assignments_spec.
    unfold add_heading, add_paragraph, desktop_blocks. cbn [fst snd].
    rewrite <- !app_assoc. cbn [app]. rewrite <- app_assoc. reflexivity.
Qed.

Lemma count_desktop_blocks (item : string * list string) :
  count_blocks (is_heading 0) (desktop_blocks item) = 0%nat
  /\ count_blocks (is_heading 1) (desktop_blocks item) = 1%nat
  /\ count_blocks is_bullet (desktop_blocks item) = List.length (snd item)
  /\ List.length (desktop_blocks item) = (2 + List.length (snd item))%nat.
Proof.
  destruct item as [student l]. unfold desktop_blocks. cbn [fst snd].
  change (Heading student 1
          :: map (fun a => Paragraph (" " ++ a) (Some "ListBullet")) l
          ++ [Paragraph EmptyString None])%list
    with ([Heading student 1]
          ++ map (fun a => Paragraph (" " ++ a) (Some "ListBullet")) l
          ++ [Paragraph EmptyString None])%list.
  rewrite !count_blocks_app, !length_app, length_map.
  assert (H : forall k,
             count_blocks (is_heading k)
               (map (fun a => Paragraph (" " ++ a) (Some "ListBullet")) l)
             = 0%nat
             /\ count_blocks is_bullet
                  (map (fun a => Paragraph (" " ++ a) (Some "ListBullet")) l)
                = List.length l).
  { intros k. unfold count_blocks.
    induction l as [| a l IH]; [ split; reflexivity | ].
    destruct IH as [I0 I1]. cbn [map filter is_heading is_bullet].
    change (String.eqb "ListBullet" "ListBullet") with true. cbv iota.
    cbn [List.length]. split; [ exact I0 | now rewrite I1 ]. }
  destruct (H 0) as [H0 Hb]. destruct (H 1) as [H1 _].
  rewrite H0, H1, Hb. unfold count_blocks. cbn. repeat split; lia.
Qed.

(** X12. The desktop document is the fixed title as the level-0 heading
    and then, for every entry of the dictionary in its order, the name as
    a level-1 heading, one bullet paragraph per assignment (the name of
    the assignment after one space) and an empty paragraph.  A student
    without a miss has a heading and the empty paragraph too.  So the
    document has one level-1 heading per entry, one bullet per listed
    assignment and two blocks per entry besides. *)
Theorem desktop_document (items : ExcelToWord.dict (list string)) :
  let doc := ExcelToWord.write_report_to_word items in
  doc
  = Heading "Missed Homework Report" 0
    :: flat_map
         (fun item =>
            Heading (fst item) 1
            :: map (fun a => Paragraph (" " ++ a) (Some "ListBullet"))
                   (snd item)
            ++ [Paragraph EmptyString None])%list
         items
  /\ count_blocks (is_heading 0) doc = 1%nat
  /\ count_blocks (is_heading 1) doc = List.length items
  /\ count_blocks is_bullet doc = List.length (List.concat (map snd items))
  /\ List.length doc
     = (1 + 2 * List.length items
        + List.length (List.concat (map snd items)))%nat.
Proof.
  cbv zeta. unfold ExcelToWord.write_report_to_word.
  rewrite add_items_spec. unfold add_heading. cbn [app].
  split; [ reflexivity | ].
  change (Heading "Missed Homework Report" 0 :: flat_map desktop_blocks items)
    with ([Heading "Missed Homework Report" 0]
          ++ flat_map desktop_blocks items)%list.
  rewrite !count_blocks_app, length_app.
  assert (H : count_blocks (is_heading 0) (flat_map desktop_blocks items)
              = 0%nat
              /\ count_blocks (is_heading 1) (flat_map desktop_blocks items)
                 = List.length items
              /\ count_blocks is_bullet (flat_map desktop_blocks items)
                 = List.length (List.concat (map snd items))
              /\ List.length (flat_map desktop_blocks items)
                 = (2 * List.length items
                    + List.length (List.concat (map snd items)))%nat).
  { induction items as [| item rest IH]; [ repeat split | ].
    cbn [flat_map map List.concat List.length].
    rewrite !count_blocks_app, !length_app.
    destruct (count_desktop_blocks item) as [H0 [H1 [H2 H3]]].
    destruct IH as [I0 [I1 [I2 I3]]].
    rewrite H0, H1, H2, H3, I0, I1, I2, I3. repeat split; lia. }
  destruct H as [H0 [H1 [H2 H3]]]. rewrite H0, H1, H2, H3.
  repeat split; cbn; lia.
Qed.

(** The desktop document of [gradebook]: the second student, who missed
    nothing, is in it. *)
Example gradebook_desktop_document :
  match ExcelToWord.generate_missed_homework_report gradebook with
  | Ok d => ExcelToWord.write_report_to_word d
  | Raise _ => []
  end
  = [ Heading "Missed Homework Report" 0;
      Heading "Ann Lee" 1;
      Paragraph " HW1" (Some "ListBullet");
      Paragraph " HW3" (Some "ListBullet");
      Paragraph EmptyString None;
      Heading "Bo Ray" 1;
      Paragraph EmptyString None;
      Heading " Cy  Day" 1;
      Paragraph " HW2" (Some "ListBullet");
      Paragraph EmptyString None ].
Proof. reflexivity. Qed.

(** ** The page of [main] *)

Lemma rstrip_nil_blank (s : string) :
  Py.rstrip s = EmptyString -> blank s = true.
Proof.
  induction s as [| c s IH]; [ reflexivity | ].
  rewrite rstrip_cons. cbn [blank].
  destruct (Py.rstrip s) as [| d r]; [ | discriminate ].
  destruct (Py.isspace c); [ intros _; now apply IH | discriminate ].
Qed.

Lemma lstrip_blank_inv (s : string) :
  blank (Py.lstrip s) = true -> blank s = true.
Proof.
  induction s as [| c s IH]; [ reflexivity | ].
  cbn [Py.lstrip blank]. destruct (Py.isspace c) eqn:Hc; [ exact IH | ].
  cbn [blank]. now rewrite Hc.
Qed.

Lemma strip_nil_iff (s : string) :
  Py.strip s = EmptyString <-> blank s = true.
Proof.
  split; [ | apply strip_blank ].
  intros H. apply lstrip_blank_inv, rstrip_nil_blank, H.
Qed.

(** The title of the report: the default for a blank input, the trimmed
    input otherwise; never empty. *)
Lemma report_title_cases (title : string) :
  report_title title
  = (if blank title then "Missed Homework Report" else Py.strip title)
  /\ report_title title <> EmptyString.
Proof.
  unfold report_title.
  destruct (Py.strip title) as [| c t] eqn:Hs.
  - apply strip_nil_iff in Hs. rewrite Hs. split; [ reflexivity | discriminate ].
  - destruct (blank title) eqn:Hb; [ | split; [ reflexivity | discriminate ] ].
    apply strip_nil_iff in Hb. congruence.
Qed.

Lemma mail_merge_cases (records : list StudentRecord) :
  build_mail_merge_dataframe records
  = if forallb (fun r => negb (blank (name r))) records
    then Ok (map mail_row_of records)
    else Raise IndexError.
Proof.
  destruct (forallb (fun r => negb (blank (name r))) records) eqn:Hall.
  - apply forallb_named in Hall. exact (mail_merge_loop_ok records Hall []).
  - apply not_all_named in Hall.
    exact (mail_merge_loop_raises records Hall []).
Qed.

(** X13. [main] offers the Word report exactly when a sheet was read and
    the extractor returned, with or without records, and then exactly
    once: the document is the one built from the extractor's records
    under the title of the sidebar trimmed, or under the default title
    when that is blank.  With no upload, an unreadable file or a
    validation error the page has no download of any kind.  The title of
    the document is never empty and has no whitespace around it. *)
Theorem main_word_report
  (order : SetOrder) (p : Csv.platform) (title : string) (cfg : Config)
  (uploaded : option (string + DataFrame)) :
  let page := fst (main p title cfg uploaded) in
  let heading :=
    if blank title then "Missed Homework Report" else Py.strip title in
  filter is_docx_button page
  = match uploaded with
    | Some (inr df) =>
        match generate_missed_homework_report df cfg with
        | Ok records =>
            [st_download_button "Download Word Report (.docx)"
               (DocxBytes (build_word_report_bytes records heading))
               "missed_homework_report.docx" docx_mime]
        | Raise _ => []
        end
    | _ => []
    end
  /\ (filter is_download page = []
      <-> match uploaded with
          | Some (inr df) =>
              exists e, generate_missed_homework_report df cfg = Raise e
          | _ => True
          end)
  /\ heading <> EmptyString
  /\ Py.strip heading = heading.
Proof.
  cbv zeta. destruct (report_title_cases title) as [Htitle Hne].
  rewrite <- Htitle. split; [ | split; [ | split; [ exact Hne | ] ] ].
  - destruct uploaded as [[e | df] |]; [ reflexivity | | reflexivity ].
    unfold main.
    destruct (generate_missed_homework_report df cfg) as [records | e];
      [ | reflexivity ].
    destruct records as [| r rest]; [ reflexivity | ].
    destruct (build_mail_merge_dataframe (r :: rest)); reflexivity.
  - destruct uploaded as [[e | df] |]; [ simpl; tauto | | simpl; tauto ].
    unfold main.
    destruct (generate_missed_homework_report df cfg) as [records | e].
    + split; [ | intros [e He]; discriminate ].
      destruct records as [| r rest]; [ discriminate | ].
      destruct (build_mail_merge_dataframe (r :: rest)); discriminate.
    + split; [ intros _; now exists e | reflexivity ].
  - rewrite Htitle. destruct (blank title); [ reflexivity | ].
    apply strip_idempotent.
Qed.

(** X14. [main] offers the mail-merge CSV exactly when the extractor
    returned at least one record and no record has a blank name: the
    bytes are the export of one row per record.  When some record has a
    blank name, the [IndexError] of the projector is not caught: it ends
    the run after the Word report has been offered, and no CSV is.  No
    other exception leaves [main]: the error of the extractor is shown on
    the page. *)
Theorem main_mail_merge_csv
  (order : SetOrder) (p : Csv.platform) (title : string) (cfg : Config)
  (uploaded : option (string + DataFrame)) :
  (filter is_csv_button (fst (main p title cfg uploaded)),
   snd (main p title cfg uploaded))
  = match uploaded with
    | Some (inr df) =>
        match generate_missed_homework_report df cfg with
        | Ok [] => ([], None)
        | Ok records =>
            if forallb (fun r => negb (blank (name r))) records
            then ([st_download_button "Download Mail Merge CSV"
                     (CsvBytes
                        (Csv.encode_utf8_sig
                           (Csv.to_csv p
                              (map (fun r =>
                                      {| FirstName :=
                                           hd EmptyString (Py.split (name r));
                                         Email := email r;
                                         MissedHomeworks :=
                                           Py.join newline (missed r) |})
                                   records))))
                     "mail_merge_data.csv" "text/csv"],
                  None)
            else ([], Some IndexError)
        | Raise _ => ([], None)
        end
    | _ => ([], None)
    end.
Proof.
  destruct uploaded as [[e | df] |]; [ reflexivity | | reflexivity ].
  unfold main.
  destruct (generate_missed_homework_report df cfg) as [records | e];
    [ | reflexivity ].
  destruct records as [| r rest]; [ reflexivity | ].
  rewrite mail_merge_cases.
  destruct (forallb (fun r0 => negb (blank (name r0))) (r :: rest));
    reflexivity.
Qed.

(** The sheet with the blank names: the page ends with the Word report
    and the run with the [IndexError]. *)
Example blank_name_page :
  @main insertion_order Csv.Posix "Report" default_config
    (Some (inr blank_name_sheet))
  = ([ st_subheader "Preview";
       st_dataframe blank_name_sheet;
       st_subheader "Detected students with missed homework";
       st_metric "Students with misses" 1;
       st_metric "Total missed items" 1;
       st_table [{| Student := EmptyString; Group := SInt 1;
                    Email_ := "a@e.edu"; Missed_assignments := "HW1" |}];
       st_divider;
       st_download_button "Download Word Report (.docx)"
         (DocxBytes [ Heading "Report" 0;
                      Heading ", 1, a@e.edu" 1;
                      Paragraph " HW1" (Some "ListBullet") ])
         "missed_homework_report.docx" docx_mime ],
     Some IndexError).
Proof. reflexivity. Qed.

(** ** From the sheet to the mail merge *)

Lemma blank_app (a b : string) : blank (a ++ b) = blank a && blank b.
Proof.
  induction a as [| c a IH]; [ reflexivity | ].
  cbn [append blank]. now rewrite IH, andb_assoc.
Qed.

Lemma blank_strip (s : string) : blank (Py.strip s) = blank s.
Proof.
  destruct (blank s) eqn:Hb.
  - now rewrite (strip_blank s Hb).
  - destruct (blank (Py.strip s)) eqn:Hs; [ | reflexivity ].
    apply strip_nil_iff in Hs. rewrite strip_idempotent in Hs.
    apply strip_nil_iff in Hs. congruence.
Qed.

(** The name of a record is blank exactly when the texts of both name
    cells are. *)
Lemma blank_record_name (cfg : Config) (score_columns : list string)
  (row : Series) :
  blank (name (record_of cfg score_columns row))
  = blank (str (cell row (first_name_col cfg)))
    && blank (str (cell row (last_name_col cfg))).
Proof.
  unfold record_of, token. cbn [name].
  rewrite blank_strip, blank_app, blank_strip.
  change (" " ++ Py.strip (str (cell row (last_name_col cfg))))
    with (String " " (Py.strip (str (cell row (last_name_col cfg))))).
  cbn [blank]. change (Py.isspace " ") with true.
  now rewrite andb_true_l, blank_strip.
Qed.

Lemma split_lstrip (s : string) : Py.split (Py.lstrip s) = Py.split s.
Proof.
  unfold Py.split. induction s as [| c s IH]; [ reflexivity | ].
  cbn [Py.lstrip]. destruct (Py.isspace c) eqn:Hc; [ | reflexivity ].
  cbn [Py.split_from]. now rewrite Hc.
Qed.

Lemma split_from_rstrip (s : string) :
  forall cur, Py.split_from cur (Py.rstrip s) = Py.split_from cur s.
Proof.
  induction s as [| c s IH]; intros cur; [ reflexivity | ].
  rewrite rstrip_cons. destruct (Py.rstrip s) as [| d r] eqn:Hr.
  - cbn [Py.split_from]. destruct (Py.isspace c) eqn:Hc.
    + destruct cur as [w |]; rewrite <- IH; reflexivity.
    + cbn [Py.split_from]. rewrite Hc, <- IH. reflexivity.
  - remember (String d r) as t eqn:Ht. clear Ht Hr.
    cbn [Py.split_from]. destruct (Py.isspace c);
      [ destruct cur as [w |] | ]; now rewrite IH.
Qed.

Lemma split_strip (s : string) : Py.split (Py.strip s) = Py.split s.
Proof.
  unfold Py.strip, Py.split at 1. rewrite split_from_rstrip.
  apply split_lstrip.
Qed.

(** The tokens of two texts joined by a space are the tokens of the one
    and then those of the other. *)
Lemma split_from_app_space (a b : string) :
  forall cur,
    Py.split_from cur (a ++ " " ++ b)
    = (Py.split_from cur a ++ Py.split b)%list.
Proof.
  induction a as [| c a IH]; intros cur.
  - change (EmptyString ++ " " ++ b) with (String " " b).
    cbn [Py.split_from]. change (Py.isspace " ") with true. cbv iota.
    destruct cur; reflexivity.
  - cbn [append Py.split_from]. destruct (Py.isspace c).
    + destruct cur as [w |]; rewrite IH; reflexivity.
    + apply IH.
Qed.

Lemma split_record_name (cfg : Config) (score_columns : list string)
  (row : Series) :
  Py.split (name (record_of cfg score_columns row))
  = (Py.split (str (cell row (first_name_col cfg)))
     ++ Py.split (str (cell row (last_name_col cfg))))%list.
Proof.
  unfold record_of, token. cbn [name]. rewrite split_strip.
  unfold Py.split at 1. rewrite split_from_app_space.
  fold (Py.split (Py.strip (str (cell row (first_name_col cfg))))).
  now rewrite !split_strip.
Qed.

Lemma named_records (cfg : Config) (score_columns : list string)
  (rows : list Series) :
  forallb (fun r => negb (blank (name r)))
    (map (record_of cfg score_columns)
         (filter (has_miss score_columns) rows))
  = negb (existsb
            (fun row =>
               has_miss score_columns row
               && blank (str (cell row (first_name_col cfg)))
               && blank (str (cell row (last_name_col cfg))))
            rows).
Proof.
  induction rows as [| row rest IH]; [ reflexivity | ].
  cbn [filter existsb]. destruct (has_miss score_columns row).
  - cbn [map forallb]. rewrite IH, blank_record_name.
    destruct (blank (str (cell row (first_name_col cfg)))),
      (blank (str (cell row (last_name_col cfg)))); reflexivity.
  - rewrite IH. reflexivity.
Qed.

(** X15. From the sheet to the mail merge.  On a valid input the
    projector, run on the records of the extractor, raises [IndexError]
    exactly when some row with a miss has blank texts in both name cells.
    Otherwise it returns one row per sheet row with a miss, in order: the
    first name is the first word of the first-name cell, or of the
    last-name cell when the first-name cell is blank; the e-mail is the
    trimmed e-mail cell; the homeworks are the missed columns joined by
    line feeds. *)
Theorem sheet_to_mail_merge
  (order : SetOrder) (df : DataFrame) (cfg : Config)
  (records : list StudentRecord) :
  valid_input df cfg = true ->
  generate_missed_homework_report df cfg = Ok records ->
  let score_columns := Py.slice_from (columns df) (scores_start_index cfg) in
  build_mail_merge_dataframe records
  = if existsb
         (fun row =>
            has_miss score_columns row
            && blank (str (cell row (first_name_col cfg)))
            && blank (str (cell row (last_name_col cfg))))
         (iterrows df)
    then Raise IndexError
    else
      Ok (map (fun row =>
                 {| FirstName :=
                      hd EmptyString
                         (Py.split (str (cell row (first_name_col cfg)))
                          ++ Py.split (str (cell row (last_name_col cfg))));
                    Email := Py.strip (str (cell row (email_col cfg)));
                    MissedHomeworks :=
                      Py.join newline
                        (filter (fun c => notna (cell row c)
                                          && eq_zero (cell row c))
                                score_columns) |})
              (filter (has_miss score_columns) (iterrows df))).
Proof.
  intros Hvalid Hgen. cbv zeta.
  rewrite (generate_valid order df cfg Hvalid) in Hgen. injection Hgen as <-.
  unfold score_columns_of.
  rewrite mail_merge_cases, named_records.
  destruct (existsb _ (iterrows df)); [ reflexivity | ].
  cbn [negb]. f_equal. rewrite map_map. apply map_ext. intros row.
  unfold mail_row_of. rewrite split_record_name. reflexivity.
Qed.

Lemma sheet_to_mail_merge_witness :
  valid_input gradebook default_config = true
  /\ @generate_missed_homework_report insertion_order gradebook default_config
     = Ok gradebook_records
  /\ build_mail_merge_dataframe gradebook_records
     = Ok [ {| FirstName := "Ann"; Email := "a@e.edu";
               MissedHomeworks := String "H" (String "W" (String "1"
                                    (String LF "HW3"))) |};
            {| FirstName := "Cy"; Email := "c@e.edu";
               MissedHomeworks := "HW2" |} ].
Proof.
  split; [ reflexivity | ].
  split; [ reflexivity | ].
  apply (sheet_to_mail_merge insertion_order gradebook default_config
           gradebook_records); reflexivity.
Defined.

(** A first-name cell that is blank leaves the first word of the last
    name as the first name of the mail merge. *)
Example blank_first_name_mail_merge :
  build_mail_merge_dataframe
    [record_of default_config ["HW1"]
       (combine ["First Name"; "Last Name"; "Group"; "Email"; "HW1"]
                [SStr " "; SStr "van Dam"; SInt 2; SStr "d@e.edu"; SInt 0])]
  = Ok [ {| FirstName := "van"; Email := "d@e.edu";
            MissedHomeworks := "HW1" |} ].
Proof. reflexivity. Qed.
